(** * Spill-aware sort sink: be/src/pipeline/exec/spill_sort_sink_operator.cpp

    A shallow embedding of [SpillSortSinkOperatorX] (the sink facade) and of
    [SpillSortSinkLocalState] (the spill coordinator), followed by the
    properties of the specification that concern them.

    The operator drives three collaborators that live outside this file:
    the in-memory Sorter (reached through [SortSinkOperatorX]), the spill
    stream manager with its I/O thread pool, and the query context (for the
    cancellation flag).  Their combined state is an abstract world [W]; the
    interface [SinkEnv] lists the calls the operator makes on it.  The
    operator's own fields are records with the names of the source.  Every
    call on a collaborator or on a dependency gate is also appended to a
    trace, in program order, so that ordering properties can be stated.

    Profiling (timers, [update_profile], [set_write_counters]) and logging
    are left out: they do not influence control flow. *)

From Stdlib Require Import ZArith List String Bool Lia.
Import ListNotations.
Open Scope Z_scope.

(** ** Values *)

(** [doris::Status]: success, or an error with its code and message. *)
Inductive Status : Type :=
| OK
| Error (code : Z) (msg : string).

Definition ok (st : Status) : bool :=
  match st with
  | OK => true
  | Error _ _ => false
  end.

(** A result with a payload ([Status] plus out-parameter in the source). *)
Inductive Result (A : Type) : Type :=
| Ok (a : A)
| Err (code : Z) (msg : string).
Arguments Ok {A} a.
Arguments Err {A} code msg.

Definition status_of {A : Type} (r : Result A) : Status :=
  match r with
  | Ok _ => OK
  | Err code msg => Error code msg
  end.

(** [vectorized::Block], reduced to its rows (one sort key per row). *)
Definition Block : Type := list Z.

Definition rows (b : Block) : Z := Z.of_nat (List.length b).

(** [vectorized::SpillStreamSPtr]: the handle of one sorted run. *)
Definition SpillStreamSPtr : Type := Z.

Definition UINT64_MAX : Z := 2 ^ 64 - 1.

(** [RuntimeProfile::Counter] holds an [int64_t] updated by [fetch_add]. *)
Definition wrap_int64 (z : Z) : Z := (z + 2 ^ 63) mod 2 ^ 64 - 2 ^ 63.

(** ** Trace of calls on the collaborators and on the gates *)

Inductive Event : Type :=
| EvSorterSink (b : Block) (eos : bool)
| EvPrepareForRead
| EvPrepareForSpill
| EvMergeSortReadForSpill (batch_rows : Z)
| EvSorterReset
| EvRegisterSpillStream (batch_rows bytes : Z)
| EvPrepareSpill (s : SpillStreamSPtr)
| EvSpillBlock (s : SpillStreamSPtr) (b : Block) (eos : bool)
| EvEndSpill (s : SpillStreamSPtr) (st : Status)
| EvSubmitFunc (s : SpillStreamSPtr)
| EvBlock
| EvSetReady
| EvSetReadyToRead
| EvFinishBlock
| EvFinishSetReady
| EvClear
| EvNotifyOne.

(** ** State of the operator *)

(** [SpillSortSharedState], the fields this file touches. *)
Record SpillSortSharedState : Type := mkShared {
  sink_status : Status;
  sorted_streams : list SpillStreamSPtr;
  spill_block_batch_row_count : Z;
  enable_spill : bool
}.

(** [SpillSortSinkLocalState].  The three gates are kept as the flag each
    one exposes to the scheduler: [_dependency] ([block]/[set_ready]), the
    read side reached by [set_ready_to_read], and [_finish_dependency]. *)
Record SpillSortSinkLocalState : Type := mkLocal {
  _shared_state : SpillSortSharedState;
  _is_spilling : bool;
  _spilling_stream : option SpillStreamSPtr;
  _eos : bool;
  rows_input_counter : Z;
  _mem_tracker : Z;
  _dependency : bool;
  _ready_to_read : bool;
  _finish_dependency : bool
}.

(** [SpillSortSinkOperatorX]. *)
Record SpillSortSinkOperatorX : Type := mkOperator {
  _enable_spill : bool
}.

(** Outcome of a statement inside a function body: go on with a value, or
    leave the function with a status. *)
Inductive Flow (A : Type) : Type :=
| Next (a : A)
| Return (st : Status).
Arguments Next {A} a.
Arguments Return {A} st.

Section Model.

Context {W : Type}.

(** What the operator needs from outside this file.  The first group is
    the Sorter behind [_sort_sink_operator], the second the spill stream
    manager, the run handle and the I/O thread pool, then the query's
    cancellation flag.  The last two are declarations of
    [SpillSortSharedState] in the header: the per-run byte budget, and
    the row count [update_spill_block_batch_row_count] stores for a
    batch given the current one. *)
Class SinkEnv : Type := {
  sorter_sink : Block -> bool -> W -> Status * W;
  sorter_data_size : W -> Z;
  get_revocable_mem_size : W -> Z;
  prepare_for_read : W -> Status * W;
  prepare_for_spill : W -> Status * W;
  merge_sort_read_for_spill : Z -> W -> Status * Block * bool * W;
  sorter_reset : W -> W;
  register_spill_stream : Z -> Z -> W -> Result SpillStreamSPtr * W;
  prepare_spill : SpillStreamSPtr -> W -> Status * W;
  spill_block : SpillStreamSPtr -> Block -> bool -> W -> Status * W;
  end_spill : SpillStreamSPtr -> Status -> W -> W;
  submit_func : SpillStreamSPtr -> W -> Status * W;
  is_cancelled : W -> bool;
  SORT_BLOCK_SPILL_BATCH_BYTES : Z;
  batch_row_count_after : Z -> Block -> Z
}.

Context {env : SinkEnv}.

(** The whole configuration: collaborators, local state, trace. *)
Record Cfg : Type := mkCfg {
  world : W;
  local_state : SpillSortSinkLocalState;
  trace : list Event
}.

(** *** Field updates *)

Definition with_world (w : W) (c : Cfg) : Cfg :=
  mkCfg w (local_state c) (trace c).

Definition emit (e : Event) (c : Cfg) : Cfg :=
  mkCfg (world c) (local_state c) (trace c ++ [e]).

Definition with_local (f : SpillSortSinkLocalState -> SpillSortSinkLocalState)
    (c : Cfg) : Cfg :=
  mkCfg (world c) (f (local_state c)) (trace c).

Definition with_shared (f : SpillSortSharedState -> SpillSortSharedState)
    (l : SpillSortSinkLocalState) : SpillSortSinkLocalState :=
  mkLocal (f (_shared_state l)) (_is_spilling l) (_spilling_stream l) (_eos l)
          (rows_input_counter l) (_mem_tracker l) (_dependency l)
          (_ready_to_read l) (_finish_dependency l).

Definition set_sink_status (st : Status) (s : SpillSortSharedState) :=
  mkShared st (sorted_streams s) (spill_block_batch_row_count s) (enable_spill s).

Definition set_sorted_streams (r : list SpillStreamSPtr) (s : SpillSortSharedState) :=
  mkShared (sink_status s) r (spill_block_batch_row_count s) (enable_spill s).

Definition set_spill_block_batch_row_count (n : Z) (s : SpillSortSharedState) :=
  mkShared (sink_status s) (sorted_streams s) n (enable_spill s).

Definition set_is_spilling (b : bool) (l : SpillSortSinkLocalState) :=
  mkLocal (_shared_state l) b (_spilling_stream l) (_eos l)
          (rows_input_counter l) (_mem_tracker l) (_dependency l)
          (_ready_to_read l) (_finish_dependency l).

Definition set_spilling_stream (o : option SpillStreamSPtr)
    (l : SpillSortSinkLocalState) :=
  mkLocal (_shared_state l) (_is_spilling l) o (_eos l)
          (rows_input_counter l) (_mem_tracker l) (_dependency l)
          (_ready_to_read l) (_finish_dependency l).

Definition set_eos (b : bool) (l : SpillSortSinkLocalState) :=
  mkLocal (_shared_state l) (_is_spilling l) (_spilling_stream l) b
          (rows_input_counter l) (_mem_tracker l) (_dependency l)
          (_ready_to_read l) (_finish_dependency l).

Definition set_rows_input_counter (n : Z) (l : SpillSortSinkLocalState) :=
  mkLocal (_shared_state l) (_is_spilling l) (_spilling_stream l) (_eos l)
          n (_mem_tracker l) (_dependency l)
          (_ready_to_read l) (_finish_dependency l).

Definition set_consumption (n : Z) (l : SpillSortSinkLocalState) :=
  mkLocal (_shared_state l) (_is_spilling l) (_spilling_stream l) (_eos l)
          (rows_input_counter l) n (_dependency l)
          (_ready_to_read l) (_finish_dependency l).

Definition set_dependency (b : bool) (l : SpillSortSinkLocalState) :=
  mkLocal (_shared_state l) (_is_spilling l) (_spilling_stream l) (_eos l)
          (rows_input_counter l) (_mem_tracker l) b
          (_ready_to_read l) (_finish_dependency l).

Definition set_read_side (b : bool) (l : SpillSortSinkLocalState) :=
  mkLocal (_shared_state l) (_is_spilling l) (_spilling_stream l) (_eos l)
          (rows_input_counter l) (_mem_tracker l) (_dependency l)
          b (_finish_dependency l).

Definition set_finish_dependency (b : bool) (l : SpillSortSinkLocalState) :=
  mkLocal (_shared_state l) (_is_spilling l) (_spilling_stream l) (_eos l)
          (rows_input_counter l) (_mem_tracker l) (_dependency l)
          (_ready_to_read l) b.

(** Shorthands for reading through [local_state]. *)
Definition shared (c : Cfg) : SpillSortSharedState := _shared_state (local_state c).
Definition status (c : Cfg) : Status := sink_status (shared c).
Definition runs (c : Cfg) : list SpillStreamSPtr := sorted_streams (shared c).

(** *** Control flow: a state monad with early return

    A function body either goes on with a value ([Next]) or leaves the
    function with a status ([Return]), which is what [RETURN_IF_ERROR]
    does on a failure. *)

Definition M (A : Type) : Type := Cfg -> Flow A * Cfg.

Definition ret {A : Type} (a : A) : M A := fun c => (Next a, c).

Definition bind {A B : Type} (m : M A) (k : A -> M B) : M B :=
  fun c =>
    match m c with
    | (Next a, c') => k a c'
    | (Return st, c') => (Return st, c')
    end.

Definition return_ {A : Type} (st : Status) : M A := fun c => (Return st, c).

Definition RETURN_IF_ERROR (st : Status) : M unit :=
  if ok st then ret tt else return_ st.

Definition gets {A : Type} (f : Cfg -> A) : M A := fun c => (Next (f c), c).

Definition modify (f : Cfg -> Cfg) : M unit := fun c => (Next tt, f c).

(** Running a body whose last statement is a [return]. *)
Definition run (m : M Status) (c : Cfg) : Status * Cfg :=
  match m c with
  | (Next st, c') => (st, c')
  | (Return st, c') => (st, c')
  end.

(** Calling a function of this file from another one. *)
Definition call (f : Cfg -> Status * Cfg) : M Status :=
  fun c => let (st, c') := f c in (Next st, c').

(** A collaborator call: log it, run it on the world. *)
Definition collab {A : Type} (e : Event) (f : W -> A * W) : M A :=
  fun c => let (a, w') := f (world c) in (Next a, with_world w' (emit e c)).

Definition collab_ (e : Event) (f : W -> W) : M unit :=
  fun c => (Next tt, with_world (f (world c)) (emit e c)).

End Model.

Arguments Cfg W : clear implicits.
Arguments SinkEnv W : clear implicits.

Declare Scope sink_scope.
Delimit Scope sink_scope with sink.
Notation "x <- m ;; k" := (bind m (fun x => k))
  (at level 61, m at next level, right associativity) : sink_scope.
Notation "m ;; k" := (bind m (fun _ => k))
  (at level 61, right associativity) : sink_scope.

(** ** The operator *)

Section Operator.

Context {W : Type} {env : SinkEnv W}.

Local Open Scope sink_scope.

(** *** The gates ([Dependency::block], [set_ready], [set_ready_to_read]) *)

Definition dependency_block : M (W := W) unit :=
  modify (fun c => emit EvBlock (with_local (set_dependency false) c)).

Definition dependency_set_ready : M (W := W) unit :=
  modify (fun c => emit EvSetReady (with_local (set_dependency true) c)).

Definition dependency_set_ready_to_read : M (W := W) unit :=
  modify (fun c => emit EvSetReadyToRead (with_local (set_read_side true) c)).

Definition finish_dependency_block : M (W := W) unit :=
  modify (fun c => emit EvFinishBlock (with_local (set_finish_dependency false) c)).

Definition finish_dependency_set_ready : M (W := W) unit :=
  modify (fun c => emit EvFinishSetReady (with_local (set_finish_dependency true) c)).

(** *** Shared state *)

Definition assign_sink_status (st : Status) : M (W := W) unit :=
  modify (with_local (with_shared (set_sink_status st))).

(** [SpillSortSharedState::update_spill_block_batch_row_count] is declared
    in the header; the row count it stores is [batch_row_count_after] of
    the environment. *)
Definition update_spill_block_batch_row_count (in_block : Block) : M (W := W) unit :=
  modify (with_local (with_shared (fun s =>
    set_spill_block_batch_row_count
      (batch_row_count_after (spill_block_batch_row_count s) in_block) s))).

(** Modelled from the spec: [SpillSortSharedState::clear], which is defined
    outside this file.  The specification says of it: clears all shared
    spill state (drop all accumulated runs). *)
Definition clear : M (W := W) unit :=
  modify (fun c => emit EvClear (with_local (with_shared (set_sorted_streams [])) c)).

(** *** [SpillSortSinkLocalState::init]

    [base_init] and [setup] are the results of [Base::init] and of
    [setup_in_memory_sort_op].  The Sorter's own copy of the flag
    ([set_enable_spill]) is not read in this file and is left out. *)
Definition init (parent : SpillSortSinkOperatorX) (base_init setup : Status)
    : Cfg W -> Status * Cfg W :=
  run (
    RETURN_IF_ERROR base_init ;;
    RETURN_IF_ERROR setup ;;
    modify (with_local (with_shared (fun s =>
      mkShared (sink_status s) (sorted_streams s) (spill_block_batch_row_count s)
               (_enable_spill parent)))) ;;
    (if _enable_spill parent then finish_dependency_block else ret tt) ;;
    ret OK).

(** *** [SpillSortSinkLocalState::close]

    The pipeline thread waits on [_spill_cv] when a spill is in flight; the
    result tells whether it has to wait for a [notify_one]. *)
Definition close_waits (c : Cfg W) : bool := _is_spilling (local_state c).

(** *** The closure handed to the spill I/O thread pool

    The closure runs on a thread of the pool.  It is taken here as one
    step of the sink instance, which happens some time after
    [revoke_memory] has returned: the scheduler does not call into a sink
    whose gate is blocked, and [close] waits for the closure to end.

    One iteration of its loop; the value is the [eos] the Sorter reported. *)
Definition spill_iteration (stream : SpillStreamSPtr) : M (W := W) bool :=
  n <- gets (fun c => spill_block_batch_row_count (shared c)) ;;
  r <- collab (EvMergeSortReadForSpill n)
         (fun w => let '(st, block, eos, w') := merge_sort_read_for_spill n w in
                   ((st, block, eos), w')) ;;
  let '(st, block, eos) := r in
  assign_sink_status st ;;
  st <- gets status ;;
  RETURN_IF_ERROR st ;;
  st <- collab (EvSpillBlock stream block eos) (spill_block stream block eos) ;;
  assign_sink_status st ;;
  st <- gets status ;;
  RETURN_IF_ERROR st ;;
  ret eos.

(** [while (!eos && !state->is_cancelled())].  The Sorter is free never to
    report the end of its data, so the loop takes fuel; [None] means the
    fuel ran out before the loop was left. *)
Fixpoint spill_loop (fuel : nat) (stream : SpillStreamSPtr) (eos : bool) (c : Cfg W)
    : option (Flow unit * Cfg W) :=
  if negb eos && negb (is_cancelled (world c)) then
    match fuel with
    | O => None
    | S fuel' =>
        match spill_iteration stream c with
        | (Next eos', c') => spill_loop fuel' stream eos' c'
        | (Return st, c') => Some (Return st, c')
        end
    end
  else Some (Next tt, c).

(** The statements of the closure after its [Defer] declaration. *)
Definition spill_func_body (fuel : nat) (stream : SpillStreamSPtr) (c : Cfg W)
    : option (Status * Cfg W) :=
  match (st <- collab EvPrepareForSpill prepare_for_spill ;;
         assign_sink_status st ;;
         st <- gets status ;;
         RETURN_IF_ERROR st) c with
  | (Return st, c1) => Some (st, c1)
  | (Next _, c1) =>
      match spill_loop fuel stream false c1 with
      | None => None
      | Some (Return st, c2) => Some (st, c2)
      | Some (Next _, c2) =>
          Some (OK, with_world (sorter_reset (world c2)) (emit EvSorterReset c2))
      end
  end.

(** The [Defer] of the closure: it runs when the body is left, whichever
    way. *)
Definition spill_func_defer (stream : SpillStreamSPtr) : M (W := W) unit :=
  st <- gets status ;;
  collab_ (EvEndSpill stream st) (end_spill stream st) ;;
  st <- gets status ;;
  (if negb (ok st) then clear else ret tt) ;;
  modify (with_local (set_spilling_stream None)) ;;
  modify (with_local (set_is_spilling false)) ;;
  eos <- gets (fun c => _eos (local_state c)) ;;
  (if eos
   then dependency_set_ready_to_read ;; finish_dependency_set_ready
   else dependency_set_ready) ;;
  modify (emit EvNotifyOne).

(** The closure as the thread pool runs it.  It reads [_spilling_stream]
    through [this]; dereferencing an empty pointer has no defined result
    ([None]). *)
Definition spill_func (fuel : nat) (c : Cfg W) : option (Cfg W) :=
  match _spilling_stream (local_state c) with
  | None => None
  | Some stream =>
      match spill_func_body fuel stream c with
      | None => None
      | Some (_, c1) => Some (snd (spill_func_defer stream c1))
      end
  end.

(** *** [SpillSortSinkLocalState::revoke_memory]

    The closure is handed to [submit_func]; when the pool accepts it, it
    runs later as [spill_func].  The [DCHECK (!_is_spilling)] at the top is
    a debug-build assertion and does nothing in a release build; it is a
    precondition here, not a statement. *)
Definition local_revoke_memory : Cfg W -> Status * Cfg W :=
  run (
    modify (with_local (set_is_spilling true)) ;;
    st <- gets status ;;
    RETURN_IF_ERROR st ;;
    n <- gets (fun c => spill_block_batch_row_count (shared c)) ;;
    r <- collab (EvRegisterSpillStream n SORT_BLOCK_SPILL_BATCH_BYTES)
           (register_spill_stream n SORT_BLOCK_SPILL_BATCH_BYTES) ;;
    match r with
    | Err code msg => return_ (Error code msg)
    | Ok stream =>
        modify (with_local (set_spilling_stream (Some stream))) ;;
        st <- collab (EvPrepareSpill stream) (prepare_spill stream) ;;
        RETURN_IF_ERROR st ;;
        modify (with_local (with_shared (fun s =>
          set_sorted_streams (sorted_streams s ++ [stream]) s))) ;;
        eos <- gets (fun c => _eos (local_state c)) ;;
        (if negb eos then dependency_block else ret tt) ;;
        st <- collab (EvSubmitFunc stream) (submit_func stream) ;;
        (if negb (ok st)
         then
           modify (with_local (set_is_spilling false)) ;;
           collab_ (EvEndSpill stream st) (end_spill stream st) ;;
           eos <- gets (fun c => _eos (local_state c)) ;;
           (if negb eos then dependency_set_ready else ret tt)
         else ret tt) ;;
        ret st
    end).

(** *** [SpillSortSinkOperatorX::revoke_memory] *)
Definition revoke_memory (parent : SpillSortSinkOperatorX)
    : Cfg W -> Status * Cfg W :=
  run (
    if negb (_enable_spill parent) then ret OK
    else call local_revoke_memory).

(** *** [SpillSortSinkOperatorX::revocable_mem_size] *)
Definition revocable_mem_size (parent : SpillSortSinkOperatorX) (c : Cfg W) : Z :=
  if negb (_enable_spill parent) then 0
  else if negb (ok (status c)) then UINT64_MAX
  else get_revocable_mem_size (world c).

(** *** [SpillSortSinkOperatorX::sink] *)
Definition sink (parent : SpillSortSinkOperatorX) (in_block : Block) (eos : bool)
    : Cfg W -> Status * Cfg W :=
  run (
    st <- gets status ;;
    RETURN_IF_ERROR st ;;
    modify (with_local (fun l =>
      set_rows_input_counter (wrap_int64 (rows_input_counter l + rows in_block)) l)) ;;
    (if 0 <? rows in_block
     then update_spill_block_batch_row_count in_block
     else ret tt) ;;
    modify (with_local (set_eos eos)) ;;
    st <- collab (EvSorterSink in_block false) (sorter_sink in_block false) ;;
    RETURN_IF_ERROR st ;;
    modify (fun c => with_local (set_consumption (sorter_data_size (world c))) c) ;;
    (if eos then
       if _enable_spill parent then
         sz <- gets (revocable_mem_size parent) ;;
         if 0 <? sz then
           st <- call (revoke_memory parent) ;;
           RETURN_IF_ERROR st
         else dependency_set_ready_to_read
       else
         st <- collab EvPrepareForRead prepare_for_read ;;
         RETURN_IF_ERROR st ;;
         dependency_set_ready_to_read
     else ret tt) ;;
    ret OK).

(** *** Serialized call sequences

    What the scheduler and the thread pool may do to one sink instance,
    one after the other. *)
Inductive Call : Type :=
| CallSink (in_block : Block) (is_last : bool)
| CallRevokeMemory
| CallSpillFunc (fuel : nat).

Definition step (parent : SpillSortSinkOperatorX) (k : Call) (c : Cfg W)
    : option (Status * Cfg W) :=
  match k with
  | CallSink in_block is_last => Some (sink parent in_block is_last c)
  | CallRevokeMemory => Some (revoke_memory parent c)
  | CallSpillFunc fuel =>
      match spill_func fuel c with
      | None => None
      | Some c' => Some (OK, c')
      end
  end.

(** The statuses returned, in call order, and the final configuration. *)
Fixpoint steps (parent : SpillSortSinkOperatorX) (ks : list Call) (c : Cfg W)
    : option (list Status * Cfg W) :=
  match ks with
  | [] => Some ([], c)
  | k :: ks' =>
      match step parent k c with
      | None => None
      | Some (st, c') =>
          match steps parent ks' c' with
          | None => None
          | Some (sts, c'') => Some (st :: sts, c'')
          end
      end
  end.

End Operator.

(** ** Profile counters

    [SpillSortSinkLocalState::update_profile] copies three counters of the
    in-memory sort's profile into the counters [_init_counters] created.
    A [RuntimeProfile] is looked at through [get_counter] only, so it is
    kept as that lookup: the value of the counter of a name, if there is
    one. *)

Record SpillSortCounters : Type := mkCounters {
  _partial_sort_timer : Z;
  _merge_block_timer : Z;
  _sort_blocks_memory_usage : Z;
  _spill_merge_sort_timer : Z
}.

Definition RuntimeProfile : Type := string -> option Z.

(** The macro [UPDATE_PROFILE (counter, name)]: the new value of
    [counter]. *)
Definition UPDATE_PROFILE (child_profile : RuntimeProfile) (counter : Z)
    (name : string) : Z :=
  match child_profile name with
  | Some value => value
  | None => counter
  end.

Definition update_profile (child_profile : RuntimeProfile) (k : SpillSortCounters)
    : SpillSortCounters :=
  mkCounters
    (UPDATE_PROFILE child_profile (_partial_sort_timer k) "PartialSortTime")
    (UPDATE_PROFILE child_profile (_merge_block_timer k) "MergeBlockTime")
    (UPDATE_PROFILE child_profile (_sort_blocks_memory_usage k) "SortBlocks")
    (_spill_merge_sort_timer k).

(** ** Preparing the operator *)

Section Prepare.

Context {W : Type}.

(** What [SpillSortSinkOperatorX::prepare] calls: [prepare] of the base
    class, [prepare] of the in-memory sort sink, and its [is_full_sort]. *)
Class PrepareEnv : Type := {
  base_prepare : W -> Status * W;
  sort_sink_prepare : W -> Status * W;
  is_full_sort : W -> bool
}.

Context {penv : PrepareEnv}.

(** [SpillSortSinkOperatorX::prepare]. *)
Definition prepare (this : SpillSortSinkOperatorX) (w : W)
    : Status * (SpillSortSinkOperatorX * W) :=
  let (st, w1) := base_prepare w in
  if negb (ok st) then (st, (this, w1))
  else
    let (st, w2) := sort_sink_prepare w1 in
    if negb (ok st) then (st, (this, w2))
    else (OK, (mkOperator (is_full_sort w2), w2)).

End Prepare.

Arguments PrepareEnv W : clear implicits.

(** ** Fake collaborators

    A deterministic stand-in for the Sorter, the spill stream manager and
    the thread pool, with switches that make one of their calls fail.  It
    is the concrete world the properties below are exercised on. *)

Module Fake.

Record World : Type := mkWorld {
  buffered : list Z;
  cursor : list Z;
  written : list (SpillStreamSPtr * Block);
  ended : list (SpillStreamSPtr * Status);
  next_stream : SpillStreamSPtr;
  register_fails : bool;
  prepare_spill_fails : bool;
  submit_fails : bool;
  writes_left : option nat;
  cancelled : bool
}.

Fixpoint insert_row (x : Z) (l : list Z) : list Z :=
  match l with
  | [] => [x]
  | y :: t => if x <=? y then x :: l else y :: insert_row x t
  end.

Definition accept (b : Block) (w : World) : World :=
  mkWorld (fold_left (fun acc x => insert_row x acc) b (buffered w)) (cursor w)
          (written w) (ended w) (next_stream w) (register_fails w)
          (prepare_spill_fails w) (submit_fails w) (writes_left w) (cancelled w).

Definition set_cursor (l : list Z) (w : World) : World :=
  mkWorld (buffered w) l (written w) (ended w) (next_stream w) (register_fails w)
          (prepare_spill_fails w) (submit_fails w) (writes_left w) (cancelled w).

Definition forget (w : World) : World :=
  mkWorld [] [] (written w) (ended w) (next_stream w) (register_fails w)
          (prepare_spill_fails w) (submit_fails w) (writes_left w) (cancelled w).

Definition read_batch (n : Z) (w : World) : Status * Block * bool * World :=
  let k := Z.to_nat n in
  let rest := skipn k (cursor w) in
  (OK, firstn k (cursor w), match rest with [] => true | _ => false end,
   set_cursor rest w).

Definition register (w : World) : Result SpillStreamSPtr * World :=
  if register_fails w then (Err 1 "register_spill_stream failed", w)
  else (Ok (next_stream w),
        mkWorld (buffered w) (cursor w) (written w) (ended w) (next_stream w + 1)
                (register_fails w) (prepare_spill_fails w) (submit_fails w)
                (writes_left w) (cancelled w)).

Definition write (s : SpillStreamSPtr) (b : Block) (w : World) : Status * World :=
  let put left :=
    mkWorld (buffered w) (cursor w) (written w ++ [(s, b)]) (ended w) (next_stream w)
            (register_fails w) (prepare_spill_fails w) (submit_fails w)
            left (cancelled w) in
  match writes_left w with
  | None => (OK, put None)
  | Some O => (Error 2 "spill_block failed", w)
  | Some (S n) => (OK, put (Some n))
  end.

Definition finish (s : SpillStreamSPtr) (st : Status) (w : World) : World :=
  mkWorld (buffered w) (cursor w) (written w) (ended w ++ [(s, st)]) (next_stream w)
          (register_fails w) (prepare_spill_fails w) (submit_fails w)
          (writes_left w) (cancelled w).

#[export] Instance fake_env : SinkEnv World := {|
  sorter_sink := fun b _ w => (OK, accept b w);
  sorter_data_size := fun w => 8 * Z.of_nat (List.length (buffered w));
  get_revocable_mem_size := fun w => 8 * Z.of_nat (List.length (buffered w));
  prepare_for_read := fun w => (OK, w);
  prepare_for_spill := fun w => (OK, set_cursor (buffered w) w);
  merge_sort_read_for_spill := read_batch;
  sorter_reset := forget;
  register_spill_stream := fun _ _ w => register w;
  prepare_spill := fun _ w =>
    if prepare_spill_fails w then (Error 3 "prepare_spill failed", w) else (OK, w);
  spill_block := fun s b _ w => write s b w;
  end_spill := finish;
  submit_func := fun _ w =>
    if submit_fails w then (Error 4 "submit_func failed", w) else (OK, w);
  is_cancelled := cancelled;
  SORT_BLOCK_SPILL_BATCH_BYTES := 8 * 1024 * 1024;
  batch_row_count_after := fun current b => if current =? 0 then rows b else current
|}.

(** A world with nothing buffered and no failure armed. *)
Definition quiet : World :=
  mkWorld [] [] [] [] 0 false false false None false.

Definition op (spill : bool) : SpillSortSinkOperatorX := mkOperator spill.

(** A sink instance as its constructor leaves it: no failure latched, no
    run, nothing counted, the Dependency Gate and the finish gate ready,
    the read side not. *)
Definition constructed (w : World) : Cfg World :=
  mkCfg w (mkLocal (mkShared OK [] 0 false) false None false 0 0 true false true) [].

(** The same after a successful [init] ([_finish_dependency] is blocked
    exactly when spill is enabled), with an empty trace to start from. *)
Definition fresh (spill : bool) (w : World) : Cfg World :=
  let c := snd (init (op spill) OK OK (constructed w)) in
  mkCfg (world c) (local_state c) [].

(** *** Scenarios *)

Definition with_switches (reg prep sub : bool) (left : option nat) (w : World)
    : World :=
  mkWorld (buffered w) (cursor w) (written w) (ended w) (next_stream w)
          reg prep sub left (cancelled w).

(** The configuration a list of calls leads to (the start when the closure
    runs out of fuel). *)
Definition after (spill : bool) (ks : list Call) (c : Cfg World) : Cfg World :=
  match steps (op spill) ks c with
  | Some (_, c') => c'
  | None => c
  end.

(** Spill enabled, one batch of three rows taken in. *)
Definition loaded : Cfg World :=
  after true [CallSink [3; 1; 2] false] (fresh true quiet).

(** The same with a stream manager that refuses to register a run, with a
    run that cannot be prepared, with a thread pool that rejects the
    closure. *)
Definition loaded_no_register : Cfg World :=
  with_world (with_switches true false false None (world loaded)) loaded.

Definition loaded_no_prepare : Cfg World :=
  with_world (with_switches false true false None (world loaded)) loaded.

Definition loaded_no_submit : Cfg World :=
  with_world (with_switches false false true None (world loaded)) loaded.

(** The same after the stream has ended. *)
Definition loaded_eos : Cfg World := with_local (set_eos true) loaded.

(** A storage that takes two batches and fails on the third.  One spill of
    three rows goes through (one batch); four more rows come in and a
    second spill is set up: its first batch will be written, its second
    will fail. *)
Definition flaky : World := with_switches false false false (Some 2%nat) quiet.

Definition before_failed_drain : Cfg World :=
  after true
    [CallSink [3; 1; 2] false; CallRevokeMemory; CallSpillFunc 5;
     CallSink [6; 5; 4; 9] false; CallRevokeMemory]
    (fresh true flaky).

Definition failed_drain_body : Cfg World :=
  match spill_func_body 5 1 before_failed_drain with
  | Some (_, c) => c
  | None => before_failed_drain
  end.

Definition after_failed_drain : Cfg World :=
  after true [CallSpillFunc 5] before_failed_drain.

(** Spill disabled: a last call, then one more call. *)
Definition after_last : Cfg World :=
  after false [CallSink [3; 1] true] (fresh false quiet).

Definition after_late : Cfg World :=
  after false [CallSink [2] false] after_last.

End Fake.

(** ** More fake collaborators and scenarios *)

Module Cases.

Import Fake.

(** The fake collaborators with a Sorter that rejects a batch holding a
    negative key. *)
Definition strict_env : SinkEnv World := {|
  sorter_sink := fun b e w =>
    if existsb (fun x => x <? 0) b then (Error 5 "negative key", w)
    else sorter_sink (SinkEnv := fake_env) b e w;
  sorter_data_size := sorter_data_size (SinkEnv := fake_env);
  get_revocable_mem_size := get_revocable_mem_size (SinkEnv := fake_env);
  prepare_for_read := prepare_for_read (SinkEnv := fake_env);
  prepare_for_spill := prepare_for_spill (SinkEnv := fake_env);
  merge_sort_read_for_spill := merge_sort_read_for_spill (SinkEnv := fake_env);
  sorter_reset := sorter_reset (SinkEnv := fake_env);
  register_spill_stream := register_spill_stream (SinkEnv := fake_env);
  prepare_spill := prepare_spill (SinkEnv := fake_env);
  spill_block := spill_block (SinkEnv := fake_env);
  end_spill := end_spill (SinkEnv := fake_env);
  submit_func := submit_func (SinkEnv := fake_env);
  is_cancelled := is_cancelled (SinkEnv := fake_env);
  SORT_BLOCK_SPILL_BATCH_BYTES := SORT_BLOCK_SPILL_BATCH_BYTES (SinkEnv := fake_env);
  batch_row_count_after := batch_row_count_after (SinkEnv := fake_env)
|}.

(** A base class and a sort sink whose [prepare] succeeds unless told
    otherwise, for a full sort or for a top-N sort. *)
Definition prepare_env (base_fails full : bool) : PrepareEnv World := {|
  base_prepare := fun w =>
    if base_fails then (Error 6 "base prepare failed", w) else (OK, w);
  sort_sink_prepare := fun w => (OK, w);
  is_full_sort := fun _ => full
|}.

(** The query is cancelled. *)
Definition cancel (w : World) : World :=
  mkWorld (buffered w) (cursor w) (written w) (ended w) (next_stream w)
          (register_fails w) (prepare_spill_fails w) (submit_fails w)
          (writes_left w) true.

(** A spill of [loaded] is set up and its closure is with the pool. *)
Definition submitted : Cfg World := snd (local_revoke_memory loaded).

(** The same, with the query cancelled before the closure runs. *)
Definition submitted_cancelled : Cfg World :=
  with_world (cancel (world submitted)) submitted.


(** One spill done, two more rows taken in. *)
Definition second_round : Cfg World :=
  after true
    [CallSink [3; 1; 2] false; CallRevokeMemory; CallSpillFunc 5;
     CallSink [6; 5] false]
    (fresh true quiet).


(** A child profile that has one of the three counters. *)
Definition partial_profile : RuntimeProfile :=
  fun name => if String.eqb name "PartialSortTime" then Some 7 else None.

End Cases.

(** ** Vocabulary of the properties *)

Section Vocabulary.

Context {W : Type} {env : SinkEnv W}.

(** The status with which the setup of a run ends in [revoke_memory]:
    registration with the stream manager, then [prepare_spill] on the run
    it handed out. *)
Definition setup_status (c : Cfg W) : Status :=
  match register_spill_stream (spill_block_batch_row_count (shared c))
          SORT_BLOCK_SPILL_BATCH_BYTES (world c) with
  | (Err code msg, _) => Error code msg
  | (Ok stream, w1) => fst (prepare_spill stream w1)
  end.

(** The status of the submission that follows a successful setup, and the
    run it is about. *)
Definition submit_status (c : Cfg W) : option (SpillStreamSPtr * Status) :=
  match register_spill_stream (spill_block_batch_row_count (shared c))
          SORT_BLOCK_SPILL_BATCH_BYTES (world c) with
  | (Err _ _, _) => None
  | (Ok stream, w1) =>
      let (st, w2) := prepare_spill stream w1 in
      if ok st then Some (stream, fst (submit_func stream w2)) else None
  end.

(** Events on one of the gates, or on the condition variable. *)
Definition is_gate_event (e : Event) : bool :=
  match e with
  | EvBlock | EvSetReady | EvSetReadyToRead
  | EvFinishBlock | EvFinishSetReady | EvNotifyOne => true
  | _ => false
  end.

(** The Sorter being told, through [sink], that the stream has ended. *)
Definition tells_sorter_eos (e : Event) : bool :=
  match e with
  | EvSorterSink _ true => true
  | _ => false
  end.

(** What the cleanup of the closure does to the gates. *)
Definition gate_events (eos : bool) : list Event :=
  if eos then [EvSetReadyToRead; EvFinishSetReady] else [EvSetReady].

(** A run of [sink] calls, none of them the last. *)
Definition sink_all (parent : SpillSortSinkOperatorX) (bs : list Block) (c : Cfg W)
    : Cfg W :=
  fold_left (fun c b => snd (sink parent b false c)) bs c.

(** How the body of the closure may change a configuration: it talks to
    the Sorter and to the run, and writes [sink_status]; it touches no
    gate and no other field. *)
Definition drains (c c' : Cfg W) : Prop :=
  exists ext,
    trace c' = trace c ++ ext /\
    existsb is_gate_event ext = false /\
    existsb tells_sorter_eos ext = false /\
    local_state c' = with_shared (set_sink_status (status c')) (local_state c).

(** The trace only grows, and never by a [sink] on the Sorter that carries
    the end-of-stream flag. *)
Definition extends_quietly (c c' : Cfg W) : Prop :=
  exists ext, trace c' = trace c ++ ext /\ existsb tells_sorter_eos ext = false.

End Vocabulary.

(** ** More vocabulary *)

Section Frames.

Context {W : Type} {env : SinkEnv W}.

(** A call made by the pipeline thread, as opposed to a run of the closure
    on the thread pool. *)
Definition pipeline_call (k : Call) : bool :=
  match k with
  | CallSink _ _ | CallRevokeMemory => true
  | CallSpillFunc _ => false
  end.

(** What the pipeline thread leaves alone: the latched status and the
    finish gate; and it never takes back the readiness of the read side. *)
Definition pipeline_frame (c c' : Cfg W) : Prop :=
  status c' = status c /\
  _finish_dependency (local_state c') = _finish_dependency (local_state c) /\
  (_ready_to_read (local_state c) = true ->
   _ready_to_read (local_state c') = true).

(** The only events of a sink that does not spill. *)
Definition is_in_memory_event (e : Event) : bool :=
  match e with
  | EvSorterSink _ _ | EvPrepareForRead | EvSetReadyToRead => true
  | _ => false
  end.

(** What a sink with spill disabled leaves alone: everything that has to
    do with runs. *)
Definition no_spill_frame (c c' : Cfg W) : Prop :=
  runs c' = runs c /\
  _is_spilling (local_state c') = _is_spilling (local_state c) /\
  _spilling_stream (local_state c') = _spilling_stream (local_state c) /\
  _dependency (local_state c') = _dependency (local_state c) /\
  _finish_dependency (local_state c') = _finish_dependency (local_state c) /\
  exists ext,
    trace c' = trace c ++ ext /\ forallb is_in_memory_event ext = true.


Definition total_rows (bs : list Block) : Z :=
  fold_right (fun b acc => rows b + acc) 0 bs.

Definition int64_range (z : Z) : Prop := - 2 ^ 63 <= z < 2 ^ 63.

End Frames.

(** ** Properties *)

Ltac unfold_flow :=
  repeat progress unfold run, call, bind, ret, return_, RETURN_IF_ERROR, gets, modify,
         collab, collab_, assign_sink_status, dependency_block,
         dependency_set_ready, dependency_set_ready_to_read,
         finish_dependency_block, finish_dependency_set_ready, clear,
         update_spill_block_batch_row_count in *.

(** Writing a configuration out field by field. *)
Ltac unfold_updates :=
  cbv beta iota delta
    [with_local with_world emit with_shared set_sink_status
     set_sorted_streams set_spill_block_batch_row_count set_is_spilling
     set_spilling_stream set_eos set_rows_input_counter set_consumption
     set_dependency set_read_side set_finish_dependency
     world local_state trace shared status runs
     _shared_state _is_spilling _spilling_stream _eos rows_input_counter
     _mem_tracker _dependency _ready_to_read _finish_dependency
     sink_status sorted_streams spill_block_batch_row_count enable_spill
     fst snd] in *.

(** Case analysis on the next collaborator result or flag that decides
    the control flow, innermost first. *)
Ltac crunch :=
  repeat (cbn in *;
    match goal with
    | |- context [match ?x with _ => _ end] =>
        lazymatch x with
        | context [match _ with _ => _ end] => fail
        | negb ?y => destruct y eqn:?
        | _ => destruct x eqn:?
        end
    end).

Ltac quiet_leaf :=
  first
    [ exists []; split; [symmetry; apply app_nil_r | reflexivity]
    | eexists; split; [cbn; rewrite <- ?app_assoc; reflexivity | reflexivity] ].

Section Properties.

Context {W : Type} {env : SinkEnv W}.

Lemma ok_true_OK (st : Status) : ok st = true -> st = OK.
Proof. destruct st; simpl; congruence. Qed.

(** *** Memory accounting *)

(** C5.  [revocable_mem_size] answers 0 when spill is disabled; with spill
    enabled it answers [UINT64_MAX] when the shared status carries a
    failure, and the Sorter's own estimate otherwise.  (The cases are
    tried in this order, as the source does.) *)
Theorem revocable_mem_size_cases (parent : SpillSortSinkOperatorX) (c : Cfg W) :
  (_enable_spill parent = false -> revocable_mem_size parent c = 0) /\
  (_enable_spill parent = true -> ok (status c) = false ->
   revocable_mem_size parent c = UINT64_MAX) /\
  (_enable_spill parent = true -> ok (status c) = true ->
   revocable_mem_size parent c = get_revocable_mem_size (world c)).
Proof.
  unfold revocable_mem_size.
  repeat split; intros; repeat
    match goal with H : _ = _ |- _ => rewrite H; clear H end; reflexivity.
Qed.

(** *** Latched failures *)

Lemma sink_latched (parent : SpillSortSinkOperatorX) (b : Block) (e : bool)
    (c : Cfg W) :
  ok (status c) = false -> sink parent b e c = (status c, c).
Proof.
  intros H. unfold sink. unfold_flow. rewrite H. reflexivity.
Qed.

Lemma local_revoke_memory_latched (c : Cfg W) :
  ok (status c) = false ->
  local_revoke_memory c = (status c, with_local (set_is_spilling true) c).
Proof.
  intros H. unfold local_revoke_memory. unfold_flow.
  change (status (with_local (set_is_spilling true) c)) with (status c).
  rewrite H. reflexivity.
Qed.

(** C6, on the code.  With a failure latched in the shared status, [sink]
    returns that failure and leaves the whole configuration as it was: no
    counter is updated, the batch row count is not touched, nothing is
    forwarded to the Sorter (the world and the trace are the same); the
    same goes for every later [sink] call, whatever its arguments.
    [revoke_memory] returns the latched failure too, before it calls any
    collaborator, but not in the same way: it has set [_is_spilling] by
    then and leaves through [RETURN_IF_ERROR] without resetting it.  The
    configuration is changed and [close] would wait for a [notify_one]
    that nobody sends.  This is the early return of C2 again, one
    statement earlier. *)
Theorem sink_short_circuits_on_latched_failure
    (parent : SpillSortSinkOperatorX) (c : Cfg W) :
  ok (status c) = false ->
  (forall b e, sink parent b e c = (status c, c)) /\
  (forall calls : list (Block * bool),
     steps parent (map (fun p => CallSink (fst p) (snd p)) calls) c
     = Some (map (fun _ => status c) calls, c)) /\
  local_revoke_memory c = (status c, with_local (set_is_spilling true) c) /\
  (_enable_spill parent = true ->
   revoke_memory parent c = (status c, with_local (set_is_spilling true) c)) /\
  close_waits (snd (local_revoke_memory c)) = true /\
  (_is_spilling (local_state c) = false -> snd (local_revoke_memory c) <> c).
Proof.
  intros H. split; [| split; [| split; [| split; [| split]]]].
  - intros b e. now apply sink_latched.
  - induction calls as [| [b e] calls IH]; simpl.
    + reflexivity.
    + rewrite (sink_latched parent b e c H). rewrite IH. reflexivity.
  - now apply local_revoke_memory_latched.
  - intros Hp. unfold revoke_memory. unfold_flow. rewrite Hp. cbn.
    rewrite (local_revoke_memory_latched c H). reflexivity.
  - rewrite (local_revoke_memory_latched c H). reflexivity.
  - intros Hi E. rewrite (local_revoke_memory_latched c H) in E. cbn in E.
    apply (f_equal (fun x => _is_spilling (local_state x))) in E.
    cbn in E. rewrite Hi in E. discriminate.
Qed.

(** *** Setting up a run *)

(** What [revoke_memory] does when registration or [prepare_spill] fails:
    it returns the failure at once. *)
Lemma local_revoke_memory_setup_failure (c : Cfg W) :
  ok (status c) = true ->
  ok (setup_status c) = false ->
  exists c' ext,
    local_revoke_memory c = (setup_status c, c') /\
    _is_spilling (local_state c') = true /\
    _dependency (local_state c') = _dependency (local_state c) /\
    runs c' = runs c /\
    trace c' = trace c ++ ext /\
    existsb is_gate_event ext = false.
Proof.
  intros Hs Hf. unfold setup_status in *. unfold local_revoke_memory. unfold_flow.
  unfold runs, status, shared in *. cbn. rewrite Hs. cbn.
  destruct (register_spill_stream _ _ (world c)) as [[stream | code msg] w1].
  - cbn. destruct (prepare_spill stream w1) as [st w2]. cbn in Hf |- *.
    rewrite Hf. cbn. do 2 eexists. repeat split.
    + cbn. rewrite <- app_assoc. reflexivity.
    + reflexivity.
  - cbn. do 2 eexists. repeat split.
Qed.

(** C10.  A failure of registration or of [prepare_spill] leaves
    [sorted_streams] as it was; the new run is appended once both have
    succeeded, and only then. *)
Theorem setup_failure_keeps_sorted_streams (c : Cfg W) :
  ok (status c) = true ->
  (ok (setup_status c) = false -> runs (snd (local_revoke_memory c)) = runs c) /\
  (ok (setup_status c) = true ->
   exists stream,
     fst (register_spill_stream (spill_block_batch_row_count (shared c))
            SORT_BLOCK_SPILL_BATCH_BYTES (world c)) = Ok stream /\
     runs (snd (local_revoke_memory c)) = runs c ++ [stream]).
Proof.
  intros Hs. split; intros Hf.
  - destruct (local_revoke_memory_setup_failure c Hs Hf)
      as (c' & ext & E & _ & _ & R & _).
    rewrite E. exact R.
  - unfold setup_status in Hf. unfold local_revoke_memory. unfold_flow.
    unfold runs, status, shared in *. cbn. rewrite Hs. cbn.
    destruct (register_spill_stream _ _ (world c)) as [[stream | code msg] w1];
      [| discriminate].
    exists stream. split; [reflexivity |].
    cbn. destruct (prepare_spill stream w1) as [st w2]. cbn in Hf |- *.
    rewrite Hf. crunch; reflexivity.
Qed.


(** What [revoke_memory] does when the thread pool turns the closure
    down. *)
Lemma local_revoke_memory_submit_failure (c : Cfg W)
    (stream : SpillStreamSPtr) (st : Status) :
  ok (status c) = true ->
  submit_status c = Some (stream, st) ->
  ok st = false ->
  exists c',
    local_revoke_memory c = (st, c') /\
    _is_spilling (local_state c') = false /\
    _spilling_stream (local_state c') = Some stream /\
    runs c' = runs c ++ [stream] /\
    _dependency (local_state c')
    = (if _eos (local_state c) then _dependency (local_state c) else true) /\
    trace c'
    = trace c
      ++ [EvRegisterSpillStream (spill_block_batch_row_count (shared c))
            SORT_BLOCK_SPILL_BATCH_BYTES;
          EvPrepareSpill stream]
      ++ (if _eos (local_state c) then [] else [EvBlock])
      ++ [EvSubmitFunc stream; EvEndSpill stream st]
      ++ (if _eos (local_state c) then [] else [EvSetReady]).
Proof.
  intros Hs Hsub Hf. unfold submit_status in Hsub.
  unfold local_revoke_memory. unfold_flow.
  unfold runs, status, shared in *. cbn. rewrite Hs. cbn.
  destruct (register_spill_stream _ _ (world c)) as [[s | code msg] w1];
    [| discriminate].
  cbn. destruct (prepare_spill s w1) as [st1 w2]. cbn.
  destruct (ok st1); [| discriminate]. cbn.
  destruct (_eos (local_state c)) eqn:He; cbn;
    destruct (submit_func s w2) as [st2 w3]; cbn in Hsub |- *;
    injection Hsub as -> ->; rewrite Hf; cbn; rewrite ?He; cbn;
    eexists; repeat split; cbn; rewrite <- ?app_assoc; reflexivity.
Qed.

(** What [revoke_memory] has done when it returns success: the run is set
    up and listed, the gate is blocked unless the stream has ended, and the
    closure is with the thread pool. *)
Lemma local_revoke_memory_OK (c c1 : Cfg W) :
  local_revoke_memory c = (OK, c1) ->
  exists stream,
    trace c1
    = trace c
      ++ [EvRegisterSpillStream (spill_block_batch_row_count (shared c))
            SORT_BLOCK_SPILL_BATCH_BYTES;
          EvPrepareSpill stream]
      ++ (if _eos (local_state c) then [] else [EvBlock])
      ++ [EvSubmitFunc stream] /\
    _spilling_stream (local_state c1) = Some stream /\
    _is_spilling (local_state c1) = true /\
    _eos (local_state c1) = _eos (local_state c) /\
    runs c1 = runs c ++ [stream] /\
    _dependency (local_state c1)
    = (if _eos (local_state c) then _dependency (local_state c) else false) /\
    _ready_to_read (local_state c1) = _ready_to_read (local_state c) /\
    _finish_dependency (local_state c1) = _finish_dependency (local_state c).
Proof.
  unfold local_revoke_memory. unfold_flow. unfold runs, status, shared.
  cbn. destruct (ok (sink_status (_shared_state (local_state c)))) eqn:Hs; cbn.
  2:{ intros H. injection H as H1 _. rewrite H1 in Hs. discriminate. }
  destruct (register_spill_stream _ _ (world c)) as [[s | code msg] w1]; cbn;
    [| discriminate].
  destruct (prepare_spill s w1) as [st1 w2]. cbn.
  destruct (ok st1) eqn:H1; cbn.
  2:{ intros H. injection H as H2 _. rewrite H2 in H1. discriminate. }
  destruct (_eos (local_state c)) eqn:He; cbn;
    destruct (submit_func s w2) as [st2 w3]; cbn;
    destruct (ok st2) eqn:H2; cbn; rewrite ?He; cbn;
    intros H; injection H as -> <-; try discriminate;
    exists s; cbn; rewrite <- ?app_assoc; repeat split; assumption.
Qed.

(** C2, on the code.  When registration or [prepare_spill] fails,
    [revoke_memory] returns the error at once: [_is_spilling], set at the
    top of the function, is still set, and no gate is touched (the
    Dependency Gate is not blocked yet at that point and stays as it was).
    [close] would then wait for a [notify_one] that nobody sends.  The reset
    of [_is_spilling] exists on the neighbouring path, where the thread
    pool rejects the closure. *)
Theorem setup_failure_leaves_is_spilling_set (c : Cfg W) :
  ok (status c) = true ->
  ok (setup_status c) = false ->
  fst (local_revoke_memory c) = setup_status c /\
  _is_spilling (local_state (snd (local_revoke_memory c))) = true /\
  close_waits (snd (local_revoke_memory c)) = true /\
  _dependency (local_state (snd (local_revoke_memory c)))
  = _dependency (local_state c) /\
  exists ext,
    trace (snd (local_revoke_memory c)) = trace c ++ ext /\
    existsb is_gate_event ext = false.
Proof.
  intros Hs Hf.
  destruct (local_revoke_memory_setup_failure c Hs Hf)
    as (c' & ext & E & I & D & _ & T & G).
  rewrite E. cbn. unfold close_waits.
  split; [reflexivity |].
  split; [exact I |].
  split; [exact I |].
  split; [exact D |].
  exists ext. split; assumption.
Qed.

(** C7, on the code.  When the thread pool rejects the closure,
    [revoke_memory] returns the error, resets [_is_spilling], finalizes the
    run with the error and, unless the stream has ended, sets the gate
    ready again; but the run it appended before the submission stays in
    [sorted_streams], and [_spilling_stream] still holds it. *)
Theorem submit_failure_keeps_run_listed (c : Cfg W)
    (stream : SpillStreamSPtr) (st : Status) :
  ok (status c) = true ->
  submit_status c = Some (stream, st) ->
  ok st = false ->
  fst (local_revoke_memory c) = st /\
  runs (snd (local_revoke_memory c)) = runs c ++ [stream] /\
  _spilling_stream (local_state (snd (local_revoke_memory c))) = Some stream /\
  _is_spilling (local_state (snd (local_revoke_memory c))) = false /\
  _dependency (local_state (snd (local_revoke_memory c)))
  = (if _eos (local_state c) then _dependency (local_state c) else true).
Proof.
  intros Hs Hsub Hf.
  destruct (local_revoke_memory_submit_failure c stream st Hs Hsub Hf)
    as (c' & E & I & P & R & D & _).
  rewrite E. cbn.
  split; [reflexivity |].
  split; [exact R |].
  split; [exact P |].
  split; [exact I | exact D].
Qed.

(** *** The background closure *)

Lemma drains_refl (c : Cfg W) : drains c c.
Proof.
  exists []. rewrite app_nil_r. repeat split.
  destruct c as [w [[st r n e] sp ss eos rc mt d rr fd] t]. reflexivity.
Qed.

Lemma drains_trans (c1 c2 c3 : Cfg W) : drains c1 c2 -> drains c2 c3 -> drains c1 c3.
Proof.
  intros (e1 & T1 & G1 & S1 & L1) (e2 & T2 & G2 & S2 & L2).
  exists (e1 ++ e2). rewrite !existsb_app, G1, G2, S1, S2.
  rewrite T2, T1, app_assoc. repeat split.
  rewrite L2, L1. reflexivity.
Qed.

Lemma spill_iteration_drains (stream : SpillStreamSPtr) (c c' : Cfg W)
    (r : Flow bool) :
  spill_iteration stream c = (r, c') ->
  drains c c' /\
  match r with
  | Next _ => ok (status c') = true
  | Return st => status c' = st /\ ok st = false
  end.
Proof.
  unfold spill_iteration. unfold_flow. unfold drains, status, shared.
  destruct c as [w [[st0 r0 n0 e0] sp ss eos rc mt d rr fd] t]. cbn.
  destruct (merge_sort_read_for_spill n0 w) as [[[st1 block] eos1] w1]. cbn.
  destruct (ok st1) eqn:H1; cbn.
  - destruct (spill_block stream block eos1 w1) as [st2 w2]. cbn.
    destruct (ok st2) eqn:H2; cbn; intros H; injection H as <- <-; cbn;
      (split; [eexists; rewrite <- app_assoc; repeat split | auto]).
  - intros H; injection H as <- <-; cbn.
    split; [eexists; repeat split | auto].
Qed.

Lemma spill_loop_drains (fuel : nat) (stream : SpillStreamSPtr) :
  forall (eos : bool) (c c' : Cfg W) (r : Flow unit),
    spill_loop fuel stream eos c = Some (r, c') ->
    ok (status c) = true ->
    drains c c' /\
    match r with
    | Next _ => ok (status c') = true
    | Return st => status c' = st /\ ok st = false
    end.
Proof.
  induction fuel as [| fuel IH]; intros eos c c' r; simpl;
    destruct (negb eos && negb (is_cancelled (world c)));
    try discriminate;
    try (intros H Hs; injection H as <- <-; split; [apply drains_refl | exact Hs]).
  destruct (spill_iteration stream c) as [[eos1 | st] c1] eqn:E;
    destruct (spill_iteration_drains _ _ _ _ E) as [D R].
  - intros H Hs. destruct (IH _ _ _ _ H R) as [D' R'].
    split; [exact (drains_trans _ _ _ D D') | exact R'].
  - intros H Hs. injection H as <- <-. split; assumption.
Qed.

Lemma spill_func_body_drains (fuel : nat) (stream : SpillStreamSPtr)
    (c c1 : Cfg W) (st : Status) :
  spill_func_body fuel stream c = Some (st, c1) ->
  status c1 = st /\
  exists rest,
    trace c1 = trace c ++ EvPrepareForSpill :: rest /\
    existsb is_gate_event rest = false /\
    existsb tells_sorter_eos rest = false /\
    local_state c1 = with_shared (set_sink_status st) (local_state c).
Proof.
  unfold spill_func_body. unfold_flow.
  destruct (prepare_for_spill (world c)) as [st0 w0] eqn:E0. cbn.
  set (c0 := with_local (with_shared (set_sink_status st0))
               (with_world w0 (emit EvPrepareForSpill c))).
  assert (D0 : trace c0 = trace c ++ [EvPrepareForSpill] /\
               local_state c0 = with_shared (set_sink_status st0) (local_state c) /\
               status c0 = st0).
  { subst c0. destruct c as [w [[s0 r0 n0 e0] sp ss eos rc mt d rr fd] t].
    repeat split. }
  destruct D0 as (T0 & L0 & S0).
  destruct (ok st0) eqn:H0; unfold ret, return_; cbn.
  - destruct (spill_loop fuel stream false c0) as [[[[] | st1] c2] |] eqn:E;
      try discriminate.
    + destruct (spill_loop_drains _ _ _ _ _ _ E) as [(ext & T & G & S & L) R];
        [rewrite S0; exact H0 |].
      intros H. injection H as <- <-.
      assert (Hst : status c2 = OK) by (apply ok_true_OK; exact R).
      split; [exact Hst |].
      exists (ext ++ [EvSorterReset]). cbn.
      rewrite !existsb_app, G, S, T, T0, <- !app_assoc. repeat split.
      rewrite L, L0, Hst.
      destruct (local_state c) as [[s0 r0 n0 e0] sp ss eos rc mt d rr fd].
      reflexivity.
    + destruct (spill_loop_drains _ _ _ _ _ _ E) as [(ext & T & G & S & L) [R1 R2]];
        [rewrite S0; exact H0 |].
      intros H. injection H as <- <-. split; [exact R1 |].
      exists ext. rewrite T, T0, <- app_assoc. repeat split; try assumption.
      rewrite L, L0, R1.
      destruct (local_state c) as [[s0 r0 n0 e0] sp ss eos rc mt d rr fd].
      reflexivity.
  - intros H. injection H as <- <-. split; [exact S0 |].
    exists []. repeat split; assumption.
Qed.


(** The closure from start to end: the body, then the cleanup in the order
    of the [Defer]. *)
Lemma spill_func_outcome (fuel : nat) (c c' : Cfg W) :
  spill_func fuel c = Some c' ->
  exists stream st c1 rest,
    _spilling_stream (local_state c) = Some stream /\
    spill_func_body fuel stream c = Some (st, c1) /\
    status c' = st /\
    existsb is_gate_event rest = false /\
    existsb tells_sorter_eos rest = false /\
    trace c1 = trace c ++ EvPrepareForSpill :: rest /\
    trace c'
    = trace c1
      ++ [EvEndSpill stream st]
      ++ (if ok st then [] else [EvClear])
      ++ gate_events (_eos (local_state c))
      ++ [EvNotifyOne] /\
    world c' = end_spill stream st (world c1) /\
    runs c' = (if ok st then runs c else []) /\
    _is_spilling (local_state c') = false /\
    _spilling_stream (local_state c') = None /\
    _eos (local_state c') = _eos (local_state c) /\
    _dependency (local_state c')
    = (if _eos (local_state c) then _dependency (local_state c) else true) /\
    _ready_to_read (local_state c')
    = (if _eos (local_state c) then true else _ready_to_read (local_state c)) /\
    _finish_dependency (local_state c')
    = (if _eos (local_state c) then true else _finish_dependency (local_state c)).
Proof.
  unfold spill_func.
  destruct (_spilling_stream (local_state c)) as [stream |] eqn:Hp;
    [| discriminate].
  destruct (spill_func_body fuel stream c) as [[st c1] |] eqn:Hb;
    [| discriminate].
  intros H. injection H as <-.
  destruct (spill_func_body_drains _ _ _ _ _ Hb) as (Hst & rest & T & G & S & L).
  exists stream, st, c1, rest.
  unfold spill_func_defer. unfold_flow. unfold gate_events, runs, status, shared in *.
  destruct c1 as [w1 l1 t1]. cbn in *. subst l1. subst t1.
  destruct (local_state c) as [[s0 r0 n0 e0] sp ss eos rc mt d rr fd]. cbn in *.
  destruct (ok st), eos; cbn; rewrite <- ?app_assoc; cbn;
    repeat split; try assumption; reflexivity.
Qed.

(** C1.  When the body of the background closure is left with a failure
    (at [prepare_for_spill], or in the drain loop after any number of
    batches), its cleanup finalizes the run with that failure status and
    clears the shared state; after it [sorted_streams] is empty, so neither
    the failed run nor an earlier run of this sink is listed. *)
Theorem drain_failure_clears_sorted_streams (fuel : nat)
    (stream : SpillStreamSPtr) (c c1 : Cfg W) (st : Status) :
  _spilling_stream (local_state c) = Some stream ->
  spill_func_body fuel stream c = Some (st, c1) ->
  ok st = false ->
  exists c',
    spill_func fuel c = Some c' /\
    runs c' = [] /\
    status c' = st /\
    world c' = end_spill stream st (world c1) /\
    trace c'
    = trace c1
      ++ [EvEndSpill stream st; EvClear]
      ++ gate_events (_eos (local_state c))
      ++ [EvNotifyOne] /\
    _is_spilling (local_state c') = false /\
    _spilling_stream (local_state c') = None.
Proof.
  intros Hp Hb Hf.
  destruct (spill_func fuel c) as [c' |] eqn:E.
  - destruct (spill_func_outcome _ _ _ E)
      as (s & st' & c1' & rest & Hp' & Hb' & Hst & _ & _ & _ & T & Hw & R & I & P & _).
    rewrite Hp in Hp'. injection Hp' as <-.
    rewrite Hb in Hb'. injection Hb' as <- <-.
    rewrite Hf in T, R.
    exists c'. repeat split; assumption.
  - unfold spill_func in E. rewrite Hp, Hb in E. discriminate.
Qed.

(** C4.  Take a [revoke_memory] that returns success, and let the closure
    it submitted run to its end.  If [eos] is false, [revoke_memory] blocks
    the Dependency Gate before it submits the closure, and the cleanup of
    the closure sets the gate ready.  If [eos] is true, [revoke_memory]
    blocks nothing and releases nothing; the cleanup marks the read side
    ready and releases the finish gate.  In both cases the body of the
    closure touches no gate, the gates are set after the run was finalized,
    and [notify_one] comes last. *)
Theorem spill_gates_order (fuel : nat) (c c1 c2 : Cfg W) :
  local_revoke_memory c = (OK, c1) ->
  spill_func fuel c1 = Some c2 ->
  exists stream body st,
    trace c1
    = trace c
      ++ [EvRegisterSpillStream (spill_block_batch_row_count (shared c))
            SORT_BLOCK_SPILL_BATCH_BYTES;
          EvPrepareSpill stream]
      ++ (if _eos (local_state c) then [] else [EvBlock])
      ++ [EvSubmitFunc stream] /\
    _dependency (local_state c1)
    = (if _eos (local_state c) then _dependency (local_state c) else false) /\
    _ready_to_read (local_state c1) = _ready_to_read (local_state c) /\
    _finish_dependency (local_state c1) = _finish_dependency (local_state c) /\
    existsb is_gate_event body = false /\
    trace c2
    = trace c1
      ++ body
      ++ [EvEndSpill stream st]
      ++ (if ok st then [] else [EvClear])
      ++ (if _eos (local_state c)
          then [EvSetReadyToRead; EvFinishSetReady]
          else [EvSetReady])
      ++ [EvNotifyOne] /\
    _is_spilling (local_state c2) = false /\
    (if _eos (local_state c)
     then _ready_to_read (local_state c2) = true /\
          _finish_dependency (local_state c2) = true /\
          _dependency (local_state c2) = _dependency (local_state c)
     else _dependency (local_state c2) = true /\
          _ready_to_read (local_state c2) = _ready_to_read (local_state c) /\
          _finish_dependency (local_state c2) = _finish_dependency (local_state c)).
Proof.
  intros Hr Hj.
  destruct (local_revoke_memory_OK _ _ Hr)
    as (stream & T1 & P1 & I1 & E1 & R1 & D1 & RR1 & F1).
  destruct (spill_func_outcome _ _ _ Hj)
    as (s & st & cb & rest & Hp & _ & _ & G & _ & Tb & T2 & _ & _ & I2 & _ & _
        & D2 & RR2 & F2).
  rewrite P1 in Hp. injection Hp as <-.
  exists stream, (EvPrepareForSpill :: rest), st.
  rewrite E1 in *. unfold gate_events in T2.
  repeat split; try assumption.
  - rewrite T2, Tb, <- !app_assoc. reflexivity.
  - destruct (_eos (local_state c)); repeat split; congruence.
Qed.


(** *** Fuel

    More fuel does not change what the closure does. *)

Lemma spill_loop_more_fuel (fuel : nat) (stream : SpillStreamSPtr) :
  forall (eos : bool) (c : Cfg W) (r : Flow unit * Cfg W) (fuel' : nat),
    spill_loop fuel stream eos c = Some r ->
    (fuel <= fuel')%nat ->
    spill_loop fuel' stream eos c = Some r.
Proof.
  induction fuel as [| fuel IH]; intros eos c r fuel' H Hle.
  - destruct fuel'; simpl in *;
      destruct (negb eos && negb (is_cancelled (world c)));
      congruence.
  - destruct fuel' as [| fuel']; [lia |]. simpl in *.
    destruct (negb eos && negb (is_cancelled (world c))); [| exact H].
    destruct (spill_iteration stream c) as [[eos1 | st] c1]; [| exact H].
    apply IH; [exact H | lia].
Qed.

Lemma spill_func_more_fuel (fuel fuel' : nat) (c c' : Cfg W) :
  spill_func fuel c = Some c' ->
  (fuel <= fuel')%nat ->
  spill_func fuel' c = Some c'.
Proof.
  unfold spill_func, spill_func_body. intros H Hle.
  destruct (_spilling_stream (local_state c)) as [stream |]; [| discriminate].
  match goal with
  | |- context [match ?m c with _ => _ end] => destruct (m c) as [[[] | st] c1]
  end; [| exact H].
  destruct (spill_loop fuel stream false c1) as [r |] eqn:E; [| discriminate].
  rewrite (spill_loop_more_fuel _ _ _ _ _ _ E Hle). exact H.
Qed.


(** *** Ingestion *)

(** A call that is not the last one forwards the batch and does nothing
    else to the collaborators or the gates. *)
Lemma sink_not_last (parent : SpillSortSinkOperatorX) (b : Block) (c : Cfg W) :
  ok (status c) = true ->
  trace (snd (sink parent b false c)) = trace c ++ [EvSorterSink b false] /\
  world (snd (sink parent b false c)) = snd (sorter_sink b false (world c)) /\
  fst (sink parent b false c) = fst (sorter_sink b false (world c)) /\
  status (snd (sink parent b false c)) = status c /\
  _eos (local_state (snd (sink parent b false c))) = false.
Proof.
  intros Hs. unfold sink. unfold_flow. unfold status, shared in *.
  rewrite Hs. cbn.
  destruct (0 <? rows b); cbn;
    destruct (sorter_sink b false (world c)) as [st w1]; cbn;
    destruct (ok st) eqn:E; cbn; repeat split;
    try (symmetry; apply ok_true_OK; exact E).
Qed.

Lemma local_revoke_memory_quiet (c : Cfg W) :
  extends_quietly c (snd (local_revoke_memory c)).
Proof.
  unfold extends_quietly, local_revoke_memory. unfold_flow.
  crunch; quiet_leaf.
Qed.

Lemma revoke_memory_quiet (parent : SpillSortSinkOperatorX) (c : Cfg W) :
  extends_quietly c (snd (revoke_memory parent c)).
Proof.
  unfold revoke_memory. unfold_flow.
  destruct (_enable_spill parent); cbn.
  - destruct (local_revoke_memory c) as [st c'] eqn:E. cbn.
    change c' with (snd (st, c')). rewrite <- E. apply local_revoke_memory_quiet.
  - exists []. split; [symmetry; apply app_nil_r | reflexivity].
Qed.






(** C8.  The last [sink] call (one that gets past the status check and
    whose batch the Sorter accepts) first does what any other call does;
    [c1] is the configuration at that point, with [_eos] set.  Then: with
    spill enabled and revocable memory above zero it is [revoke_memory]
    that runs, and its status is returned; with spill enabled and no
    revocable memory the read side is marked ready and nothing else
    happens; with spill disabled the Sorter's [prepare_for_read] runs first
    and the read side is marked ready after it (a failure of
    [prepare_for_read] is returned instead). *)
Theorem sink_last_call (parent : SpillSortSinkOperatorX) (b : Block) (c : Cfg W) :
  ok (status c) = true ->
  ok (fst (sorter_sink b false (world c))) = true ->
  let c1 := with_local (set_eos true) (snd (sink parent b false c)) in
  (_enable_spill parent = true -> 0 < revocable_mem_size parent c1 ->
   sink parent b true c = revoke_memory parent c1) /\
  (_enable_spill parent = true -> revocable_mem_size parent c1 = 0 ->
   sink parent b true c
   = (OK, emit EvSetReadyToRead (with_local (set_read_side true) c1))) /\
  (_enable_spill parent = false ->
   let (st, w2) := prepare_for_read (world c1) in
   let c2 := with_world w2 (emit EvPrepareForRead c1) in
   sink parent b true c
   = if ok st
     then (OK, emit EvSetReadyToRead (with_local (set_read_side true) c2))
     else (st, c2)).
Proof.
  intros Hs Hk c1. subst c1. unfold sink. unfold_flow.
  rewrite Hs. cbn.
  destruct (0 <? rows b); cbn;
    (destruct (sorter_sink b false (world c)) as [st w1]; cbn in Hk |- *;
     rewrite Hk; cbn;
     split; [| split]; intros Hp; rewrite Hp; unfold_updates;
     [ intros Hz; apply Z.ltb_lt in Hz;
       rewrite Hz; cbn;
       match goal with
       | |- context [revoke_memory ?p ?c0] =>
           destruct (revoke_memory p c0) as [st3 c3]; cbn;
           destruct (ok st3) eqn:E3; cbn; [| reflexivity];
           apply ok_true_OK in E3; rewrite E3; reflexivity
       end
     | intros Hz; rewrite Hz; reflexivity
     | destruct (prepare_for_read w1) as [st2 w2]; cbn;
       destruct (ok st2); reflexivity ]).
Qed.

(** Past the status check, the batch goes to the Sorter with the
    end-of-stream flag false, whatever [is_last] says. *)
Lemma sink_forwards_with_false (parent : SpillSortSinkOperatorX) (b : Block)
    (e : bool) (c : Cfg W) :
  ok (status c) = true ->
  exists rest,
    trace (snd (sink parent b e c)) = trace c ++ EvSorterSink b false :: rest.
Proof.
  intros Hs. destruct e.
  - unfold sink. unfold_flow. rewrite Hs. cbn.
    destruct (0 <? rows b); cbn;
      (destruct (sorter_sink b false (world c)) as [st w1]; cbn;
       destruct (ok st); cbn; [| exists []; reflexivity];
       destruct (_enable_spill parent) eqn:Hp; cbn;
       [ match goal with
         | |- context [0 <? revocable_mem_size parent ?c0] =>
             destruct (0 <? revocable_mem_size parent c0); cbn;
               [| eexists; rewrite <- app_assoc; reflexivity];
             destruct (revoke_memory_quiet parent c0) as (ext & T & _);
             destruct (revoke_memory parent c0) as [st3 c3]; cbn in *;
             exists ext; destruct (ok st3); cbn; rewrite T, <- app_assoc;
             reflexivity
         end
       | destruct (prepare_for_read w1) as [st2 w2]; cbn;
         destruct (ok st2); cbn; eexists; rewrite <- ?app_assoc; reflexivity ]).
  - exists []. apply (sink_not_last parent b c Hs).
Qed.



(** C3, as the code has it.  A [sink] call that gets past the status check
    stores its [is_last] argument in [_eos], whatever the flag was, and
    forwards its batch to the Sorter even when the flag was already set; a
    call stopped by a latched failure leaves the flag alone.  So the flag
    goes from false to true once, and stays, in the call sequences of the
    pipeline, where only the final call carries [is_last]: it is false
    after every call before the final one and true after the final one
    when that call gets past the status check. *)
Theorem eos_follows_is_last (parent : SpillSortSinkOperatorX) :
  (forall b e (c : Cfg W),
     ok (status c) = true ->
     _eos (local_state (snd (sink parent b e c))) = e /\
     exists rest,
       trace (snd (sink parent b e c)) = trace c ++ EvSorterSink b false :: rest) /\
  (forall b e (c : Cfg W),
     ok (status c) = false ->
     _eos (local_state (snd (sink parent b e c))) = _eos (local_state c)) /\
  (forall bs b (c : Cfg W),
     _eos (local_state c) = false ->
     _eos (local_state (sink_all parent bs c)) = false /\
     (ok (status (sink_all parent bs c)) = true ->
      _eos (local_state (snd (sink parent b true (sink_all parent bs c)))) = true)).
Proof.
  assert (A : forall b e (c : Cfg W),
             ok (status c) = true ->
             _eos (local_state (snd (sink parent b e c))) = e).
  { intros b e c Hs. destruct e.
    - unfold sink. unfold_flow. rewrite Hs. cbn.
      destruct (0 <? rows b); cbn;
        (destruct (sorter_sink b false (world c)) as [st w1]; cbn;
         destruct (ok st); cbn; [| reflexivity];
         destruct (_enable_spill parent) eqn:Hp; cbn;
         [ match goal with
           | |- context [0 <? revocable_mem_size parent ?c0] =>
               destruct (0 <? revocable_mem_size parent c0); cbn;
                 [| reflexivity];
               unfold revoke_memory; unfold_flow; rewrite Hp; cbn;
               destruct (local_revoke_memory c0) as [st3 c3] eqn:E3; cbn;
               assert (E : _eos (local_state c3) = true);
               [ change c3 with (snd (st3, c3)); rewrite <- E3;
                 unfold local_revoke_memory; unfold_flow; crunch; reflexivity
               | destruct (ok st3); cbn; exact E ]
           end
         | destruct (prepare_for_read w1) as [st2 w2]; cbn;
           destruct (ok st2); reflexivity ]).
    - apply (sink_not_last parent b c Hs). }
  assert (B : forall b e (c : Cfg W),
             ok (status c) = false ->
             _eos (local_state (snd (sink parent b e c))) = _eos (local_state c)).
  { intros b e c Hs. rewrite (sink_latched parent b e c Hs). reflexivity. }
  split; [| split].
  - intros b e c Hs. split; [exact (A b e c Hs) |].
    exact (sink_forwards_with_false parent b e c Hs).
  - exact B.
  - intros bs b c. revert c. unfold sink_all.
    induction bs as [| b0 bs IH]; intros c He; simpl.
    + split; [exact He | intros Hs; apply A; exact Hs].
    + apply IH. destruct (ok (status c)) eqn:Hs.
      * apply A. exact Hs.
      * rewrite B; assumption.
Qed.


End Properties.

(** ** Further properties of the operator *)

Section MoreProperties.

Context {W : Type} {env : SinkEnv W}.

(** *** What the pipeline thread never writes *)

Lemma local_revoke_memory_keeps (c : Cfg W) :
  status (snd (local_revoke_memory c)) = status c /\
  _finish_dependency (local_state (snd (local_revoke_memory c)))
  = _finish_dependency (local_state c) /\
  _ready_to_read (local_state (snd (local_revoke_memory c)))
  = _ready_to_read (local_state c) /\
  _eos (local_state (snd (local_revoke_memory c))) = _eos (local_state c) /\
  rows_input_counter (local_state (snd (local_revoke_memory c)))
  = rows_input_counter (local_state c) /\
  _mem_tracker (local_state (snd (local_revoke_memory c)))
  = _mem_tracker (local_state c) /\
  spill_block_batch_row_count (shared (snd (local_revoke_memory c)))
  = spill_block_batch_row_count (shared c).
Proof.
  unfold local_revoke_memory. unfold_flow. unfold status, shared.
  crunch; cbn; repeat split; congruence.
Qed.

Lemma revoke_memory_keeps (parent : SpillSortSinkOperatorX) (c : Cfg W) :
  status (snd (revoke_memory parent c)) = status c /\
  _finish_dependency (local_state (snd (revoke_memory parent c)))
  = _finish_dependency (local_state c) /\
  _ready_to_read (local_state (snd (revoke_memory parent c)))
  = _ready_to_read (local_state c) /\
  _eos (local_state (snd (revoke_memory parent c))) = _eos (local_state c) /\
  rows_input_counter (local_state (snd (revoke_memory parent c)))
  = rows_input_counter (local_state c) /\
  _mem_tracker (local_state (snd (revoke_memory parent c)))
  = _mem_tracker (local_state c) /\
  spill_block_batch_row_count (shared (snd (revoke_memory parent c)))
  = spill_block_batch_row_count (shared c).
Proof.
  unfold revoke_memory. unfold_flow.
  destruct (_enable_spill parent); cbn.
  - pose proof (local_revoke_memory_keeps c) as H.
    destruct (local_revoke_memory c) as [st c']. exact H.
  - repeat split.
Qed.

Lemma revoke_memory_frame (parent : SpillSortSinkOperatorX) (c : Cfg W) :
  pipeline_frame c (snd (revoke_memory parent c)).
Proof.
  destruct (revoke_memory_keeps parent c) as (S & F & R & _).
  unfold pipeline_frame. rewrite S, F, R. auto.
Qed.

Lemma pipeline_frame_refl (c : Cfg W) : pipeline_frame c c.
Proof. unfold pipeline_frame. auto. Qed.

Lemma pipeline_frame_trans (c1 c2 c3 : Cfg W) :
  pipeline_frame c1 c2 -> pipeline_frame c2 c3 -> pipeline_frame c1 c3.
Proof.
  intros (S1 & F1 & R1) (S2 & F2 & R2). unfold pipeline_frame.
  rewrite S2, S1, F2, F1. auto.
Qed.

Lemma sink_frame (parent : SpillSortSinkOperatorX) (b : Block) (e : bool)
    (c : Cfg W) :
  pipeline_frame c (snd (sink parent b e c)).
Proof.
  unfold sink. unfold_flow.
  destruct (ok (status c)); cbn; [| apply pipeline_frame_refl].
  destruct (0 <? rows b); cbn;
    (destruct (sorter_sink b false (world c)) as [st w1]; cbn;
     destruct (ok st); cbn; [| unfold pipeline_frame; cbn; auto];
     destruct e; cbn; [| unfold pipeline_frame; cbn; auto];
     destruct (_enable_spill parent) eqn:Hp; cbn;
     [ match goal with
       | |- context [0 <? revocable_mem_size parent ?c0] =>
           destruct (0 <? revocable_mem_size parent c0); cbn;
             [| unfold pipeline_frame; cbn; auto];
           apply pipeline_frame_trans with c0;
             [unfold pipeline_frame; cbn; auto |];
           pose proof (revoke_memory_frame parent c0) as H;
           destruct (revoke_memory parent c0) as [st3 c3]; cbn in *;
           destruct (ok st3); cbn; exact H
       end
     | destruct (prepare_for_read w1) as [st2 w2]; cbn;
       destruct (ok st2); cbn; unfold pipeline_frame; cbn; auto ]).
Qed.

Lemma steps_pipeline_frame (parent : SpillSortSinkOperatorX) (ks : list Call) :
  forall c : Cfg W,
    forallb pipeline_call ks = true ->
    exists sts c',
      steps parent ks c = Some (sts, c') /\
      List.length sts = List.length ks /\
      pipeline_frame c c'.
Proof.
  induction ks as [| k ks IH]; intros c Hk; simpl in *.
  - exists [], c. split; [reflexivity |]. split; [reflexivity |].
    apply pipeline_frame_refl.
  - apply andb_true_iff in Hk. destruct Hk as [Hk Hks].
    destruct k; try discriminate; simpl.
    + destruct (sink parent in_block is_last c) as [st c1] eqn:E.
      destruct (IH c1 Hks) as (sts & c' & E' & L & F). rewrite E'.
      exists (st :: sts), c'.
      split; [reflexivity |]. split; [simpl; congruence |].
      apply pipeline_frame_trans with c1; [| exact F].
      change c1 with (snd (st, c1)). rewrite <- E. apply sink_frame.
    + destruct (revoke_memory parent c) as [st c1] eqn:E.
      destruct (IH c1 Hks) as (sts & c' & E' & L & F). rewrite E'.
      exists (st :: sts), c'.
      split; [reflexivity |]. split; [simpl; congruence |].
      apply pipeline_frame_trans with c1; [| exact F].
      change c1 with (snd (st, c1)). rewrite <- E. apply revoke_memory_frame.
Qed.

(** X1.  No sequence of [sink] and [revoke_memory] calls writes
    [sink_status]: an error of the Sorter, of the registration, of
    [prepare_spill] or of the submission is returned to the caller and not
    latched, and a latched failure stays latched, so that every [sink]
    after the sequence still returns it. *)
Theorem pipeline_calls_keep_sink_status (parent : SpillSortSinkOperatorX)
    (ks : list Call) (c : Cfg W) :
  forallb pipeline_call ks = true ->
  exists sts c',
    steps parent ks c = Some (sts, c') /\
    status c' = status c /\
    (ok (status c) = false ->
     forall b e, sink parent b e c' = (status c, c')).
Proof.
  intros Hk.
  destruct (steps_pipeline_frame parent ks c Hk) as (sts & c' & E & _ & S & _).
  exists sts, c'. split; [exact E |]. split; [exact S |].
  intros Hf b e. rewrite <- S. apply sink_latched. rewrite S. exact Hf.
Qed.

(** X2.  No sequence of [sink] and [revoke_memory] calls changes the finish
    gate or takes back the readiness of the read side.  In particular the
    last [sink] call of a spilling sink that has nothing to revoke marks
    the read side ready and leaves the finish gate as [init] blocked it:
    only the cleanup of a closure sets that gate. *)
Theorem pipeline_calls_keep_finish_gate (parent : SpillSortSinkOperatorX) :
  (forall ks (c : Cfg W),
     forallb pipeline_call ks = true ->
     exists sts c',
       steps parent ks c = Some (sts, c') /\
       _finish_dependency (local_state c') = _finish_dependency (local_state c) /\
       (_ready_to_read (local_state c) = true ->
        _ready_to_read (local_state c') = true)) /\
  (forall b (c : Cfg W),
     _enable_spill parent = true ->
     ok (status c) = true ->
     ok (fst (sorter_sink b false (world c))) = true ->
     get_revocable_mem_size (snd (sorter_sink b false (world c))) = 0 ->
     fst (sink parent b true c) = OK /\
     _ready_to_read (local_state (snd (sink parent b true c))) = true /\
     _finish_dependency (local_state (snd (sink parent b true c)))
     = _finish_dependency (local_state c) /\
     trace (snd (sink parent b true c))
     = trace c ++ [EvSorterSink b false; EvSetReadyToRead]).
Proof.
  split.
  - intros ks c Hk.
    destruct (steps_pipeline_frame parent ks c Hk) as (sts & c' & E & _ & _ & F & R).
    exists sts, c'. auto.
  - intros b c Hp Hs Hk Hz. unfold sink. unfold_flow. rewrite Hs. cbn.
    destruct (0 <? rows b); cbn;
      (destruct (sorter_sink b false (world c)) as [st w1]; cbn in Hk, Hz |- *;
       rewrite Hk; cbn; rewrite Hp; cbn;
       unfold revocable_mem_size; rewrite Hp; cbn;
       unfold status, shared in *; cbn; rewrite Hs; cbn; rewrite Hz; cbn;
       repeat split; rewrite <- app_assoc; reflexivity).
Qed.

(** *** A sink that does not spill *)

Lemma revoke_memory_disabled (parent : SpillSortSinkOperatorX) (c : Cfg W) :
  _enable_spill parent = false -> revoke_memory parent c = (OK, c).
Proof.
  intros Hp. unfold revoke_memory. unfold_flow. rewrite Hp. reflexivity.
Qed.

Lemma no_spill_frame_refl (c : Cfg W) : no_spill_frame c c.
Proof.
  unfold no_spill_frame. repeat split. exists []. rewrite app_nil_r. auto.
Qed.

Lemma no_spill_frame_trans (c1 c2 c3 : Cfg W) :
  no_spill_frame c1 c2 -> no_spill_frame c2 c3 -> no_spill_frame c1 c3.
Proof.
  intros (R1 & I1 & P1 & D1 & F1 & e1 & T1 & A1)
         (R2 & I2 & P2 & D2 & F2 & e2 & T2 & A2).
  unfold no_spill_frame. rewrite R2, R1, I2, I1, P2, P1, D2, D1, F2, F1.
  repeat split. exists (e1 ++ e2).
  rewrite T2, T1, app_assoc, forallb_app, A1, A2. auto.
Qed.

Lemma sink_no_spill (parent : SpillSortSinkOperatorX) (b : Block) (e : bool)
    (c : Cfg W) :
  _enable_spill parent = false -> no_spill_frame c (snd (sink parent b e c)).
Proof.
  intros Hp. unfold sink. unfold_flow.
  destruct (ok (status c)); cbn; [| apply no_spill_frame_refl].
  destruct (0 <? rows b); cbn;
    (destruct (sorter_sink b false (world c)) as [st w1]; cbn;
     destruct (ok st); cbn;
     [ destruct e; cbn;
       [ rewrite Hp; cbn; destruct (prepare_for_read w1) as [st2 w2]; cbn;
         destruct (ok st2); cbn |]
     |];
     unfold no_spill_frame, runs, shared; cbn; repeat split;
     eexists; (split; [rewrite <- ?app_assoc; reflexivity | reflexivity])).
Qed.

(** X3.  With spill disabled, no sequence of [sink] and [revoke_memory]
    calls ever sets up a run: [sorted_streams], [_is_spilling], the run
    handle and both gates stay as they were, the only collaborator calls
    are the Sorter's [sink] and [prepare_for_read], [close] has nothing more
    to wait for than before, and [revocable_mem_size] answers 0 at the
    end. *)
Theorem spill_disabled_never_spills (parent : SpillSortSinkOperatorX)
    (ks : list Call) (c : Cfg W) :
  _enable_spill parent = false ->
  forallb pipeline_call ks = true ->
  exists sts c' ext,
    steps parent ks c = Some (sts, c') /\
    runs c' = runs c /\
    _is_spilling (local_state c') = _is_spilling (local_state c) /\
    _spilling_stream (local_state c') = _spilling_stream (local_state c) /\
    _dependency (local_state c') = _dependency (local_state c) /\
    _finish_dependency (local_state c') = _finish_dependency (local_state c) /\
    close_waits c' = close_waits c /\
    revocable_mem_size parent c' = 0 /\
    trace c' = trace c ++ ext /\
    forallb is_in_memory_event ext = true.
Proof.
  intros Hp. revert c.
  assert (A : forall c : Cfg W,
             forallb pipeline_call ks = true ->
             exists sts c',
               steps parent ks c = Some (sts, c') /\ no_spill_frame c c').
  { induction ks as [| k ks IH]; intros c Hk; simpl in *.
    - exists [], c. split; [reflexivity | apply no_spill_frame_refl].
    - apply andb_true_iff in Hk. destruct Hk as [Hk Hks].
      destruct k; try discriminate; simpl.
      + destruct (sink parent in_block is_last c) as [st c1] eqn:E.
        destruct (IH c1 Hks) as (sts & c' & E' & F). rewrite E'.
        exists (st :: sts), c'. split; [reflexivity |].
        apply no_spill_frame_trans with c1; [| exact F].
        change c1 with (snd (st, c1)). rewrite <- E.
        apply sink_no_spill. exact Hp.
      + rewrite (revoke_memory_disabled parent c Hp).
        destruct (IH c Hks) as (sts & c' & E' & F). rewrite E'.
        exists (OK :: sts), c'. split; [reflexivity | exact F]. }
  intros c Hk.
  destruct (A c Hk) as (sts & c' & E & R & I & P & D & F & ext & T & G).
  exists sts, c', ext. unfold close_waits, revocable_mem_size.
  rewrite Hp, I. cbn. repeat split; assumption.
Qed.

(** *** Errors of the Sorter *)

(** X4.  When the Sorter rejects the batch, [sink] returns the Sorter's
    error.  By then the rows are counted and [_eos] holds [is_last]; the
    memory tracker is not updated, the error is not latched in
    [sink_status], and the end-of-stream handling is skipped even on the
    last call: nothing is revoked and the read side is not marked. *)
Theorem sink_sorter_failure (parent : SpillSortSinkOperatorX) (b : Block)
    (e : bool) (c : Cfg W) :
  ok (status c) = true ->
  ok (fst (sorter_sink b false (world c))) = false ->
  fst (sink parent b e c) = fst (sorter_sink b false (world c)) /\
  world (snd (sink parent b e c)) = snd (sorter_sink b false (world c)) /\
  trace (snd (sink parent b e c)) = trace c ++ [EvSorterSink b false] /\
  status (snd (sink parent b e c)) = status c /\
  _eos (local_state (snd (sink parent b e c))) = e /\
  rows_input_counter (local_state (snd (sink parent b e c)))
  = wrap_int64 (rows_input_counter (local_state c) + rows b) /\
  _mem_tracker (local_state (snd (sink parent b e c)))
  = _mem_tracker (local_state c) /\
  _ready_to_read (local_state (snd (sink parent b e c)))
  = _ready_to_read (local_state c) /\
  _is_spilling (local_state (snd (sink parent b e c)))
  = _is_spilling (local_state c) /\
  runs (snd (sink parent b e c)) = runs c.
Proof.
  intros Hs Hk. unfold sink. unfold_flow. rewrite Hs. cbn.
  destruct (0 <? rows b); cbn;
    (destruct (sorter_sink b false (world c)) as [st w1]; cbn in Hk |- *;
     rewrite Hk; cbn; repeat split).
Qed.

(** *** Counting rows *)

Lemma wrap_int64_range (z : Z) : int64_range (wrap_int64 z).
Proof.
  unfold int64_range, wrap_int64.
  pose proof (Z.mod_pos_bound (z + 2 ^ 63) (2 ^ 64) ltac:(lia)). lia.
Qed.

Lemma wrap_int64_small (z : Z) : int64_range z -> wrap_int64 z = z.
Proof.
  unfold int64_range, wrap_int64. intros H.
  rewrite Z.mod_small by lia. lia.
Qed.

Lemma wrap_int64_add (a b : Z) : wrap_int64 (wrap_int64 a + b) = wrap_int64 (a + b).
Proof.
  unfold wrap_int64.
  replace ((a + 2 ^ 63) mod 2 ^ 64 - 2 ^ 63 + b + 2 ^ 63)
    with ((a + 2 ^ 63) mod 2 ^ 64 + b) by lia.
  rewrite Zplus_mod_idemp_l.
  replace (a + 2 ^ 63 + b) with (a + b + 2 ^ 63) by lia. reflexivity.
Qed.

Lemma rows_nonneg (b : Block) : 0 <= rows b.
Proof. unfold rows. lia. Qed.

Lemma total_rows_nonneg (bs : list Block) : 0 <= total_rows bs.
Proof.
  induction bs as [| b bs IH]; simpl; [lia |].
  pose proof (rows_nonneg b). lia.
Qed.

Lemma sink_counts_rows (parent : SpillSortSinkOperatorX) (b : Block) (e : bool)
    (c : Cfg W) :
  ok (status c) = true ->
  rows_input_counter (local_state (snd (sink parent b e c)))
  = wrap_int64 (rows_input_counter (local_state c) + rows b) /\
  spill_block_batch_row_count (shared (snd (sink parent b e c)))
  = (if 0 <? rows b
     then batch_row_count_after (spill_block_batch_row_count (shared c)) b
     else spill_block_batch_row_count (shared c)).
Proof.
  intros Hs. unfold sink. unfold_flow. rewrite Hs. cbn.
  destruct (0 <? rows b); cbn;
    (destruct (sorter_sink b false (world c)) as [st w1]; cbn;
     destruct (ok st); cbn; [| split; reflexivity];
     destruct e; cbn; [| split; reflexivity];
     destruct (_enable_spill parent) eqn:Hp; cbn;
     [ match goal with
       | |- context [0 <? revocable_mem_size parent ?c0] =>
           destruct (0 <? revocable_mem_size parent c0); cbn;
             [| split; reflexivity];
           destruct (revoke_memory_keeps parent c0) as (_ & _ & _ & _ & R & _ & N);
           destruct (revoke_memory parent c0) as [st3 c3]; cbn in *;
           destruct (ok st3); cbn; rewrite R, N; split; reflexivity
       end
     | destruct (prepare_for_read w1) as [st2 w2]; cbn;
       destruct (ok st2); cbn; split; reflexivity ]).
Qed.

(** X5.  [rows_input_counter] counts the rows offered to [sink]: after a
    series of calls on a sink with no failure latched it holds the old
    count plus the rows of all the batches, wrapped to an [int64_t]; the
    rows of a batch the Sorter rejected are counted too.  Short of an
    overflow that is the exact sum. *)
Theorem rows_input_counter_counts (parent : SpillSortSinkOperatorX)
    (bs : list Block) (c : Cfg W) :
  ok (status c) = true ->
  int64_range (rows_input_counter (local_state c)) ->
  rows_input_counter (local_state (sink_all parent bs c))
  = wrap_int64 (rows_input_counter (local_state c) + total_rows bs) /\
  (0 <= rows_input_counter (local_state c) ->
   rows_input_counter (local_state c) + total_rows bs < 2 ^ 63 ->
   rows_input_counter (local_state (sink_all parent bs c))
   = rows_input_counter (local_state c) + total_rows bs).
Proof.
  intros Hs Hr.
  assert (A : rows_input_counter (local_state (sink_all parent bs c))
              = wrap_int64 (rows_input_counter (local_state c) + total_rows bs)).
  { revert c Hs Hr. unfold sink_all.
    induction bs as [| b bs IH]; intros c Hs Hr; simpl.
    - rewrite Z.add_0_r. symmetry. apply wrap_int64_small. exact Hr.
    - destruct (sink_counts_rows parent b false c Hs) as [Hc _].
      destruct (sink_frame parent b false c) as (S & _).
      rewrite IH.
      + rewrite Hc, wrap_int64_add. f_equal. lia.
      + rewrite S. exact Hs.
      + rewrite Hc. apply wrap_int64_range. }
  split; [exact A |].
  intros H0 Hlt. rewrite A. apply wrap_int64_small.
  pose proof (total_rows_nonneg bs). unfold int64_range. lia.
Qed.

(** *** The row bound of a spilled batch *)

Lemma spill_func_keeps_batch_row_count (fuel : nat) (c c' : Cfg W) :
  spill_func fuel c = Some c' ->
  spill_block_batch_row_count (shared c')
  = spill_block_batch_row_count (shared c).
Proof.
  unfold spill_func.
  destruct (_spilling_stream (local_state c)) as [stream |]; [| discriminate].
  destruct (spill_func_body fuel stream c) as [[st c1] |] eqn:Hb; [| discriminate].
  intros H. injection H as <-.
  destruct (spill_func_body_drains _ _ _ _ _ Hb) as (_ & rest & _ & _ & _ & L).
  unfold spill_func_defer. unfold_flow. unfold shared, status.
  destruct c1 as [w1 l1 t1]. cbn in *. subst l1.
  destruct (local_state c) as [[s0 r0 n0 e0] sp ss eos rc mt d rr fd]. cbn.
  destruct (ok st), eos; reflexivity.
Qed.

(** X6.  [spill_block_batch_row_count] is written by [sink] only, and only
    for a batch that has rows: a [sink] call past the status check stores
    what [update_spill_block_batch_row_count] computes when the batch is
    not empty and leaves the bound alone when it is; [revoke_memory] never
    changes it, and neither does a run of the closure that ends without a
    failure. *)
Theorem batch_row_count_written_by_sink_only (parent : SpillSortSinkOperatorX) :
  (forall b e (c : Cfg W),
     ok (status c) = true ->
     spill_block_batch_row_count (shared (snd (sink parent b e c)))
     = (if 0 <? rows b
        then batch_row_count_after (spill_block_batch_row_count (shared c)) b
        else spill_block_batch_row_count (shared c))) /\
  (forall c : Cfg W,
     spill_block_batch_row_count (shared (snd (revoke_memory parent c)))
     = spill_block_batch_row_count (shared c)) /\
  (forall fuel (c c' : Cfg W),
     spill_func fuel c = Some c' ->
     ok (status c') = true ->
     spill_block_batch_row_count (shared c')
     = spill_block_batch_row_count (shared c)).
Proof.
  split; [| split].
  - intros b e c Hs. apply (sink_counts_rows parent b e c Hs).
  - intros c. apply (revoke_memory_keeps parent c).
  - intros fuel c c' H _. exact (spill_func_keeps_batch_row_count fuel c c' H).
Qed.


(** *** What the closure does to its run *)






(** X9.  When the query is already cancelled as the closure reaches its
    loop, the closure reads and writes nothing, whatever the fuel: it
    resets the Sorter and finalizes the run with status OK.  Nothing is
    latched and nothing is cleared, so the run, which holds no batch,
    stays in [sorted_streams]. *)
Theorem cancelled_before_drain (fuel : nat) (c : Cfg W)
    (stream : SpillStreamSPtr) :
  _spilling_stream (local_state c) = Some stream ->
  fst (prepare_for_spill (world c)) = OK ->
  is_cancelled (snd (prepare_for_spill (world c))) = true ->
  exists c',
    spill_func fuel c = Some c' /\
    status c' = OK /\
    runs c' = runs c /\
    world c'
    = end_spill stream OK (sorter_reset (snd (prepare_for_spill (world c)))) /\
    trace c'
    = trace c
      ++ [EvPrepareForSpill; EvSorterReset; EvEndSpill stream OK]
      ++ gate_events (_eos (local_state c))
      ++ [EvNotifyOne].
Proof.
  intros Hp Hk Hc. unfold spill_func, spill_func_body. rewrite Hp. unfold_flow.
  destruct c as [w [[s0 r0 n0 e0] sp ss eos rc mt d rr fd] t].
  cbn in Hp, Hk, Hc |- *.
  destruct (prepare_for_spill w) as [st0 w0]. cbn in Hk, Hc |- *.
  subst st0. cbn.
  assert (L : forall c0 : Cfg W,
             world c0 = w0 -> spill_loop fuel stream false c0 = Some (Next tt, c0)).
  { intros c0 E. destruct fuel; simpl; rewrite E, Hc; reflexivity. }
  rewrite L by reflexivity.
  unfold spill_func_defer. unfold_flow. unfold gate_events, runs, status, shared.
  cbn. eexists. split; [reflexivity |].
  destruct eos; cbn; rewrite <- ?app_assoc; repeat split.
Qed.

(** *** A whole spill *)

Lemma local_revoke_memory_OK_registered (c c1 : Cfg W) :
  local_revoke_memory c = (OK, c1) ->
  ok (status c) = true /\
  exists stream,
    fst (register_spill_stream (spill_block_batch_row_count (shared c))
           SORT_BLOCK_SPILL_BATCH_BYTES (world c)) = Ok stream /\
    _spilling_stream (local_state c1) = Some stream /\
    runs c1 = runs c ++ [stream].
Proof.
  unfold local_revoke_memory. unfold_flow. unfold runs, status, shared.
  cbn. destruct (ok (sink_status (_shared_state (local_state c)))) eqn:Hs; cbn.
  2:{ intros H. injection H as H1 _. rewrite H1 in Hs. discriminate. }
  destruct (register_spill_stream _ _ (world c)) as [[s | code msg] w1]; cbn;
    [| discriminate].
  destruct (prepare_spill s w1) as [st1 w2]. cbn.
  destruct (ok st1) eqn:H1; cbn.
  2:{ intros H. injection H as H2 _. rewrite H2 in H1. discriminate. }
  destruct (_eos (local_state c)) eqn:He; cbn;
    destruct (submit_func s w2) as [st2 w3]; cbn;
    destruct (ok st2) eqn:H2; cbn; rewrite ?He; cbn;
    intros H; injection H as -> <-; try discriminate;
    (split; [reflexivity |]); exists s; cbn; repeat split.
Qed.

(** X10.  A [revoke_memory] that returns success, followed by a run of the
    closure that ends without a failure, adds exactly one run at the end
    of [sorted_streams], the one the stream manager registered for this
    call; the runs listed before keep their place.  The handle is given
    up and [_is_spilling] is false again, so the next [revoke_memory]
    meets its precondition. *)
Theorem spill_appends_one_run (fuel : nat) (c c1 c2 : Cfg W) :
  local_revoke_memory c = (OK, c1) ->
  spill_func fuel c1 = Some c2 ->
  ok (status c2) = true ->
  exists stream,
    fst (register_spill_stream (spill_block_batch_row_count (shared c))
           SORT_BLOCK_SPILL_BATCH_BYTES (world c)) = Ok stream /\
    runs c2 = runs c ++ [stream] /\
    _is_spilling (local_state c2) = false /\
    _spilling_stream (local_state c2) = None /\
    _eos (local_state c2) = _eos (local_state c).
Proof.
  intros Hr Hj Hs.
  destruct (local_revoke_memory_OK_registered _ _ Hr) as (_ & stream & Hg & Hp & R1).
  destruct (local_revoke_memory_OK _ _ Hr) as (_ & _ & _ & _ & E1 & _).
  destruct (spill_func_outcome _ _ _ Hj)
    as (s & st & cb & rest & _ & _ & Hst & _ & _ & _ & _ & _ & R2 & I2 & P2 & E2 & _).
  rewrite <- Hst, Hs in R2.
  exists stream. rewrite R2, R1, E2, E1. repeat split; assumption.
Qed.


(** *** The end of the stream, with rows to spill *)

Lemma sink_not_last_keeps (parent : SpillSortSinkOperatorX) (b : Block)
    (c : Cfg W) :
  runs (snd (sink parent b false c)) = runs c /\
  _is_spilling (local_state (snd (sink parent b false c)))
  = _is_spilling (local_state c) /\
  _dependency (local_state (snd (sink parent b false c)))
  = _dependency (local_state c) /\
  _ready_to_read (local_state (snd (sink parent b false c)))
  = _ready_to_read (local_state c) /\
  _finish_dependency (local_state (snd (sink parent b false c)))
  = _finish_dependency (local_state c).
Proof.
  unfold sink. unfold_flow. unfold runs, shared.
  destruct (ok (status c)); cbn; [| repeat split].
  destruct (0 <? rows b); cbn;
    (destruct (sorter_sink b false (world c)) as [st w1]; cbn;
     destruct (ok st); cbn; repeat split).
Qed.

Lemma revoke_memory_enabled (parent : SpillSortSinkOperatorX) (c : Cfg W) :
  _enable_spill parent = true -> revoke_memory parent c = local_revoke_memory c.
Proof.
  intros Hp. unfold revoke_memory. unfold_flow. rewrite Hp. cbn.
  destruct (local_revoke_memory c) as [st c']. reflexivity.
Qed.

Lemma sink_last_revokes (parent : SpillSortSinkOperatorX) (b : Block) (c : Cfg W) :
  _enable_spill parent = true ->
  ok (status c) = true ->
  ok (fst (sorter_sink b false (world c))) = true ->
  0 < get_revocable_mem_size (snd (sorter_sink b false (world c))) ->
  sink parent b true c
  = local_revoke_memory (with_local (set_eos true) (snd (sink parent b false c))).
Proof.
  intros Hp Hs Hk Hz. apply Z.ltb_lt in Hz.
  rewrite <- (revoke_memory_enabled parent _ Hp).
  unfold sink. unfold_flow. rewrite Hs. cbn.
  destruct (0 <? rows b); cbn;
    (destruct (sorter_sink b false (world c)) as [st w1]; cbn in Hk, Hz |- *;
     rewrite Hk; cbn; rewrite Hp; cbn;
     unfold revocable_mem_size; rewrite Hp; cbn;
     unfold status, shared in *; cbn; rewrite Hs; cbn; rewrite Hz; cbn;
     unfold_updates;
     match goal with
     | |- context [revoke_memory ?p ?c0] =>
         destruct (revoke_memory p c0) as [st3 c3]; cbn;
         destruct (ok st3) eqn:E3; cbn; [| reflexivity];
         apply ok_true_OK in E3; rewrite E3; reflexivity
     end).
Qed.

(** X11.  The last [sink] call of a spilling sink that still has rows to
    revoke hands over to [revoke_memory] and, when that succeeds, returns
    with a spill in flight: the read side and the finish gate are as
    before, and the Dependency Gate is not blocked.  The closure then does
    the signalling: when it has run, whether the drain succeeded or not,
    the read side is ready, the finish gate is released and [_is_spilling]
    is false; when the drain succeeded [sorted_streams] has gained the new
    run. *)
Theorem last_sink_spills_then_signals (parent : SpillSortSinkOperatorX)
    (b : Block) (fuel : nat) (c c1 c2 : Cfg W) :
  _enable_spill parent = true ->
  ok (status c) = true ->
  ok (fst (sorter_sink b false (world c))) = true ->
  0 < get_revocable_mem_size (snd (sorter_sink b false (world c))) ->
  sink parent b true c = (OK, c1) ->
  spill_func fuel c1 = Some c2 ->
  (_is_spilling (local_state c1) = true /\
   _ready_to_read (local_state c1) = _ready_to_read (local_state c) /\
   _finish_dependency (local_state c1) = _finish_dependency (local_state c) /\
   _dependency (local_state c1) = _dependency (local_state c)) /\
  (_is_spilling (local_state c2) = false /\
   _ready_to_read (local_state c2) = true /\
   _finish_dependency (local_state c2) = true /\
   _dependency (local_state c2) = _dependency (local_state c)) /\
  (ok (status c2) = true -> exists stream, runs c2 = runs c ++ [stream]).
Proof.
  intros Hp Hs Hk Hz H1 H2.
  rewrite (sink_last_revokes parent b c Hp Hs Hk Hz) in H1.
  destruct (sink_not_last_keeps parent b c) as (R0 & _ & D0 & RR0 & F0).
  destruct (local_revoke_memory_OK _ _ H1)
    as (stream & _ & _ & I1 & E1 & R1 & D1 & RR1 & F1).
  cbn in E1, R1, D1, RR1, F1.
  destruct (spill_func_outcome _ _ _ H2)
    as (s & st & cb & rest & _ & _ & Hst & _ & _ & _ & _ & _ & R2 & I2 & _ & _
        & D2 & RR2 & F2).
  rewrite E1 in D2, RR2, F2.
  split; [| split].
  - split; [exact I1 |]. split; [congruence |]. split; congruence.
  - split; [exact I2 |]. split; [exact RR2 |]. split; [exact F2 | congruence].
  - intros Hok. exists stream. rewrite Hst in Hok. rewrite R2, Hok.
    rewrite R1. unfold runs, shared in *. cbn. rewrite <- R0. reflexivity.
Qed.


End MoreProperties.

(** ** Properties of [update_profile] and [prepare] *)

Lemma UPDATE_PROFILE_twice (child_profile : RuntimeProfile) (counter : Z)
    (name : string) :
  UPDATE_PROFILE child_profile (UPDATE_PROFILE child_profile counter name) name
  = UPDATE_PROFILE child_profile counter name.
Proof.
  unfold UPDATE_PROFILE. destruct (child_profile name); reflexivity.
Qed.

(** X12.  [update_profile] takes from the child profile the counters it
    finds under the three names and leaves alone a counter whose name the
    child profile does not have; [_spill_merge_sort_timer] is never
    written.  So a profile with none of the three names changes nothing,
    two profiles that agree on the three names have the same effect, and
    updating twice from the same profile is the same as updating once. *)
Theorem update_profile_missing_counter_kept (child_profile : RuntimeProfile)
    (k : SpillSortCounters) :
  (child_profile "PartialSortTime"%string = None ->
   _partial_sort_timer (update_profile child_profile k) = _partial_sort_timer k) /\
  (child_profile "MergeBlockTime"%string = None ->
   _merge_block_timer (update_profile child_profile k) = _merge_block_timer k) /\
  (child_profile "SortBlocks"%string = None ->
   _sort_blocks_memory_usage (update_profile child_profile k)
   = _sort_blocks_memory_usage k) /\
  (forall v, child_profile "PartialSortTime"%string = Some v ->
             _partial_sort_timer (update_profile child_profile k) = v) /\
  (forall v, child_profile "MergeBlockTime"%string = Some v ->
             _merge_block_timer (update_profile child_profile k) = v) /\
  (forall v, child_profile "SortBlocks"%string = Some v ->
             _sort_blocks_memory_usage (update_profile child_profile k) = v) /\
  _spill_merge_sort_timer (update_profile child_profile k)
  = _spill_merge_sort_timer k /\
  (child_profile "PartialSortTime"%string = None ->
   child_profile "MergeBlockTime"%string = None ->
   child_profile "SortBlocks"%string = None ->
   update_profile child_profile k = k) /\
  (forall other : RuntimeProfile,
     other "PartialSortTime"%string = child_profile "PartialSortTime"%string ->
     other "MergeBlockTime"%string = child_profile "MergeBlockTime"%string ->
     other "SortBlocks"%string = child_profile "SortBlocks"%string ->
     update_profile other k = update_profile child_profile k) /\
  update_profile child_profile (update_profile child_profile k)
  = update_profile child_profile k.
Proof.
  unfold update_profile, UPDATE_PROFILE. cbn.
  repeat split; intros;
    repeat match goal with
           | H : _ = _ |- _ => rewrite H; clear H
           end;
    try reflexivity.
  - destruct k; reflexivity.
  - destruct (child_profile "PartialSortTime"%string),
             (child_profile "MergeBlockTime"%string),
             (child_profile "SortBlocks"%string); reflexivity.
Qed.

Section PrepareProperties.

Context {W : Type} {env : SinkEnv W} {penv : PrepareEnv W}.

(** X13.  [prepare] returns the first error of the base class's and the
    sort sink's [prepare], without reaching the second when the first
    fails, and then leaves [_enable_spill] as it was.  When both succeed
    [_enable_spill] is [is_full_sort].  So for a sort that is not a full
    sort the prepared operator never spills: [revocable_mem_size] is 0 in
    every state, [revoke_memory] returns success and does nothing, and
    [init] leaves the finish gate alone; for a full sort [init] blocks
    the finish gate. *)
Theorem prepare_decides_spill (this this' : SpillSortSinkOperatorX)
    (w w' : W) (st : Status) :
  prepare this w = (st, (this', w')) ->
  (ok (fst (base_prepare w)) = false ->
   st = fst (base_prepare w) /\ w' = snd (base_prepare w) /\ this' = this) /\
  (ok st = false -> this' = this) /\
  (ok st = true ->
   st = OK /\
   w' = snd (sort_sink_prepare (snd (base_prepare w))) /\
   _enable_spill this' = is_full_sort w') /\
  (ok st = true -> is_full_sort w' = false ->
   forall c : Cfg W,
     revocable_mem_size this' c = 0 /\
     revoke_memory this' c = (OK, c) /\
     _finish_dependency (local_state (snd (init this' OK OK c)))
     = _finish_dependency (local_state c)) /\
  (ok st = true -> is_full_sort w' = true ->
   forall c : Cfg W,
     enable_spill (shared (snd (init this' OK OK c))) = true /\
     _finish_dependency (local_state (snd (init this' OK OK c))) = false).
Proof.
  unfold prepare.
  destruct (base_prepare w) as [st1 w1]. cbn.
  destruct (ok st1) eqn:H1; cbn.
  - destruct (sort_sink_prepare w1) as [st2 w2]. cbn.
    destruct (ok st2) eqn:H2; cbn; intros H; injection H as <- <- <-.
    + split; [discriminate |]. split; [discriminate |].
      split; [auto |].
      split; intros _ Hf c; unfold revocable_mem_size, revoke_memory, init;
        unfold_flow; cbn; rewrite Hf; cbn; repeat split.
    + split; [discriminate |]. split; [reflexivity |].
      split; [| split]; intros Hk; rewrite Hk in H2; discriminate.
  - intros H; injection H as <- <- <-.
    split; [auto |]. split; [reflexivity |].
    split; [| split]; intros Hk; rewrite Hk in H1; discriminate.
Qed.

End PrepareProperties.

(** ** The properties on the fake collaborators *)

Import Fake.

Lemma revocable_mem_size_cases_witness :
  revocable_mem_size (op false) after_failed_drain = 0 /\
  revocable_mem_size (op true) after_failed_drain = UINT64_MAX /\
  revocable_mem_size (op true) loaded = 24.
Proof.
  destruct (revocable_mem_size_cases (op false) after_failed_drain) as (H0 & _ & _).
  destruct (revocable_mem_size_cases (op true) after_failed_drain) as (_ & H1 & _).
  destruct (revocable_mem_size_cases (op true) loaded) as (_ & _ & H2).
  split; [| split].
  - apply H0. reflexivity.
  - apply H1; vm_compute; reflexivity.
  - rewrite H2 by (vm_compute; reflexivity). vm_compute. reflexivity.
Defined.

Lemma sink_short_circuits_on_latched_failure_witness :
  ok (status after_failed_drain) = false /\
  sink (op true) [7; 8] true after_failed_drain
  = (status after_failed_drain, after_failed_drain) /\
  steps (op true) [CallSink [7] false; CallSink [] true] after_failed_drain
  = Some ([status after_failed_drain; status after_failed_drain],
          after_failed_drain) /\
  status after_failed_drain = Error 2 "spill_block failed" /\
  _is_spilling (local_state after_failed_drain) = false /\
  revoke_memory (op true) after_failed_drain
  = (status after_failed_drain,
     with_local (set_is_spilling true) after_failed_drain) /\
  close_waits (snd (local_revoke_memory after_failed_drain)) = true /\
  snd (local_revoke_memory after_failed_drain) <> after_failed_drain.
Proof.
  assert (Hs : ok (status after_failed_drain) = false) by (vm_compute; reflexivity).
  assert (Hi : _is_spilling (local_state after_failed_drain) = false)
    by (vm_compute; reflexivity).
  destruct (sink_short_circuits_on_latched_failure (op true) after_failed_drain Hs)
    as (H1 & H2 & _ & H4 & H5 & H6).
  split; [exact Hs | split; [| split; [| split; [| split; [| split; [| split]]]]]].
  - exact (H1 [7; 8] true).
  - exact (H2 [([7], false); ([], true)]).
  - vm_compute. reflexivity.
  - exact Hi.
  - exact (H4 eq_refl).
  - exact H5.
  - exact (H6 Hi).
Defined.

Lemma setup_failure_keeps_sorted_streams_witness :
  (ok (setup_status loaded_no_register) = false /\
   runs (snd (local_revoke_memory loaded_no_register)) = runs loaded_no_register) /\
  (ok (setup_status loaded_no_prepare) = false /\
   runs (snd (local_revoke_memory loaded_no_prepare)) = runs loaded_no_prepare) /\
  (ok (setup_status loaded) = true /\
   runs (snd (local_revoke_memory loaded)) = runs loaded ++ [0]).
Proof.
  assert (S1 : ok (status loaded_no_register) = true) by (vm_compute; reflexivity).
  assert (S2 : ok (status loaded_no_prepare) = true) by (vm_compute; reflexivity).
  assert (S3 : ok (status loaded) = true) by (vm_compute; reflexivity).
  assert (F1 : ok (setup_status loaded_no_register) = false)
    by (vm_compute; reflexivity).
  assert (F2 : ok (setup_status loaded_no_prepare) = false)
    by (vm_compute; reflexivity).
  assert (F3 : ok (setup_status loaded) = true) by (vm_compute; reflexivity).
  destruct (setup_failure_keeps_sorted_streams loaded_no_register S1) as (H1 & _).
  destruct (setup_failure_keeps_sorted_streams loaded_no_prepare S2) as (H2 & _).
  destruct (setup_failure_keeps_sorted_streams loaded S3) as (_ & H3).
  split; [| split].
  - split; [exact F1 | exact (H1 F1)].
  - split; [exact F2 | exact (H2 F2)].
  - split; [exact F3 |].
    destruct (H3 F3) as (stream & E & R).
    vm_compute in E. injection E as <-. exact R.
Defined.

Lemma drain_failure_clears_sorted_streams_witness :
  runs before_failed_drain = [0; 1] /\
  spill_func_body 5 1 before_failed_drain
  = Some (Error 2 "spill_block failed", failed_drain_body) /\
  written (world failed_drain_body) = [(0, [1; 2; 3]); (1, [4; 5; 6])] /\
  exists c',
    spill_func 5 before_failed_drain = Some c' /\
    runs c' = [] /\
    status c' = Error 2 "spill_block failed" /\
    ended (world c') = [(0, OK); (1, Error 2 "spill_block failed")].
Proof.
  assert (Hp : _spilling_stream (local_state before_failed_drain) = Some 1)
    by (vm_compute; reflexivity).
  assert (Hb : spill_func_body 5 1 before_failed_drain
               = Some (Error 2 "spill_block failed", failed_drain_body))
    by (vm_compute; reflexivity).
  destruct (drain_failure_clears_sorted_streams 5 1 before_failed_drain
              failed_drain_body (Error 2 "spill_block failed") Hp Hb eq_refl)
    as (c' & E & R & S & Hw & _).
  split; [vm_compute; reflexivity |].
  split; [exact Hb |].
  split; [vm_compute; reflexivity |].
  exists c'. repeat split; try assumption.
  rewrite Hw. vm_compute. reflexivity.
Defined.

Lemma spill_gates_order_witness :
  (exists c1 c2,
     local_revoke_memory loaded = (OK, c1) /\
     spill_func 5 c1 = Some c2 /\
     _dependency (local_state c1) = false /\
     _dependency (local_state c2) = true /\
     _finish_dependency (local_state c2) = false) /\
  (exists c1 c2,
     local_revoke_memory loaded_eos = (OK, c1) /\
     spill_func 5 c1 = Some c2 /\
     _finish_dependency (local_state c1) = false /\
     _ready_to_read (local_state c2) = true /\
     _finish_dependency (local_state c2) = true).
Proof.
  split.
  - set (c1 := snd (local_revoke_memory loaded)).
    set (c2 := after true [CallSpillFunc 5] c1).
    assert (H1 : local_revoke_memory loaded = (OK, c1)) by (vm_compute; reflexivity).
    assert (H2 : spill_func 5 c1 = Some c2) by (vm_compute; reflexivity).
    clearbody c1 c2.
    destruct (spill_gates_order 5 loaded c1 c2 H1 H2)
      as (stream & body & st & _ & D1 & _ & F1 & _ & _ & _ & H).
    assert (He : _eos (local_state loaded) = false) by (vm_compute; reflexivity).
    rewrite He in D1, H. destruct H as (D2 & _ & F2).
    exists c1, c2.
    split; [exact H1 | split; [exact H2 | split; [exact D1 | split; [exact D2 |]]]].
    rewrite F2. vm_compute. reflexivity.
  - set (c1 := snd (local_revoke_memory loaded_eos)).
    set (c2 := after true [CallSpillFunc 5] c1).
    assert (H1 : local_revoke_memory loaded_eos = (OK, c1))
      by (vm_compute; reflexivity).
    assert (H2 : spill_func 5 c1 = Some c2) by (vm_compute; reflexivity).
    clearbody c1 c2.
    destruct (spill_gates_order 5 loaded_eos c1 c2 H1 H2)
      as (stream & body & st & _ & _ & _ & F1 & _ & _ & _ & H).
    assert (He : _eos (local_state loaded_eos) = true) by (vm_compute; reflexivity).
    rewrite He in H. destruct H as (R2 & F2 & _).
    exists c1, c2.
    split; [exact H1 | split; [exact H2 | split; [| split; [exact R2 | exact F2]]]].
    rewrite F1. vm_compute. reflexivity.
Defined.

Lemma sink_last_call_witness :
  (0 < revocable_mem_size (op true)
         (with_local (set_eos true) (snd (sink (op true) [5; 4] false loaded))) /\
   sink (op true) [5; 4] true loaded
   = revoke_memory (op true)
       (with_local (set_eos true) (snd (sink (op true) [5; 4] false loaded)))) /\
  (revocable_mem_size (op true)
     (with_local (set_eos true) (snd (sink (op true) [] false (fresh true quiet))))
   = 0 /\
   sink (op true) [] true (fresh true quiet)
   = (OK, emit EvSetReadyToRead
            (with_local (set_read_side true)
               (with_local (set_eos true)
                  (snd (sink (op true) [] false (fresh true quiet))))))) /\
  fst (sink (op false) [3; 1] true (fresh false quiet)) = OK /\
  trace (snd (sink (op false) [3; 1] true (fresh false quiet)))
  = [EvSorterSink [3; 1] false; EvPrepareForRead; EvSetReadyToRead].
Proof.
  assert (Sa : ok (status loaded) = true) by (vm_compute; reflexivity).
  assert (Ka : ok (fst (sorter_sink [5; 4] false (world loaded))) = true)
    by (vm_compute; reflexivity).
  destruct (sink_last_call (op true) [5; 4] loaded Sa Ka) as (Ha & _ & _).
  destruct (sink_last_call (env := fake_env) (op true) [] (fresh true quiet)
              eq_refl eq_refl) as (_ & Hb & _).
  destruct (sink_last_call (env := fake_env) (op false) [3; 1] (fresh false quiet)
              eq_refl eq_refl) as (_ & _ & Hc).
  assert (Za : 0 < revocable_mem_size (op true)
                     (with_local (set_eos true)
                        (snd (sink (op true) [5; 4] false loaded))))
    by (vm_compute; reflexivity).
  assert (Zb : revocable_mem_size (op true)
                 (with_local (set_eos true)
                    (snd (sink (op true) [] false (fresh true quiet)))) = 0)
    by (vm_compute; reflexivity).
  split; [| split].
  - split; [exact Za | exact (Ha eq_refl Za)].
  - split; [exact Zb | exact (Hb eq_refl Zb)].
  - specialize (Hc eq_refl).
    destruct (prepare_for_read _) as [st w2] eqn:E in Hc.
    vm_compute in E. injection E as <- <-.
    rewrite Hc. vm_compute. split; reflexivity.
Defined.


Lemma eos_follows_is_last_witness :
  _eos (local_state (snd (sink (op false) [2] false after_last))) = false /\
  _eos (local_state (snd (sink (op true) [7] true after_failed_drain)))
  = _eos (local_state after_failed_drain) /\
  _eos (local_state (sink_all (op true) [[3; 1; 2]; [5]] (fresh true quiet))) = false /\
  _eos (local_state
          (snd (sink (op true) [4] true
                  (sink_all (op true) [[3; 1; 2]; [5]] (fresh true quiet))))) = true.
Proof.
  destruct (eos_follows_is_last (env := fake_env) (op false)) as (H1 & _ & _).
  destruct (eos_follows_is_last (env := fake_env) (op true)) as (_ & H2 & H3).
  destruct (H3 [[3; 1; 2]; [5]] [4] (fresh true quiet) eq_refl) as (H4 & H5).
  assert (S1 : ok (status after_last) = true) by (vm_compute; reflexivity).
  assert (S2 : ok (status after_failed_drain) = false) by (vm_compute; reflexivity).
  assert (S3 : ok (status (sink_all (op true) [[3; 1; 2]; [5]] (fresh true quiet)))
               = true) by (vm_compute; reflexivity).
  split; [| split; [| split]].
  - exact (proj1 (H1 [2] false after_last S1)).
  - exact (H2 [7] true after_failed_drain S2).
  - exact H4.
  - exact (H5 S3).
Defined.

(** C3, as the specification has it, fails.  With spill disabled, a call
    with [is_last] is followed by one without: the second call returns
    success, puts the flag back to false, and its batch is taken in by the
    Sorter like any other. *)
Lemma eos_is_not_sticky :
  steps (op false) [CallSink [3; 1] true; CallSink [2] false] (fresh false quiet)
  = Some ([OK; OK], after_late) /\
  _eos (local_state after_last) = true /\
  _eos (local_state after_late) = false /\
  trace after_late
  = [EvSorterSink [3; 1] false; EvPrepareForRead; EvSetReadyToRead;
     EvSorterSink [2] false] /\
  buffered (world after_last) = [1; 3] /\
  buffered (world after_late) = [1; 2; 3].
Proof. vm_compute. repeat split. Qed.

(** The failing input of C2: registration is refused, or the run cannot
    be prepared, while the stream has not ended. *)
Lemma setup_failure_leaves_is_spilling_set_witness :
  (_is_spilling (local_state loaded_no_register) = false /\
   fst (local_revoke_memory loaded_no_register)
   = Error 1 "register_spill_stream failed" /\
   _is_spilling (local_state (snd (local_revoke_memory loaded_no_register))) = true /\
   close_waits (snd (local_revoke_memory loaded_no_register)) = true) /\
  (_is_spilling (local_state loaded_no_prepare) = false /\
   fst (local_revoke_memory loaded_no_prepare) = Error 3 "prepare_spill failed" /\
   _is_spilling (local_state (snd (local_revoke_memory loaded_no_prepare))) = true /\
   close_waits (snd (local_revoke_memory loaded_no_prepare)) = true).
Proof.
  assert (S1 : ok (status loaded_no_register) = true) by (vm_compute; reflexivity).
  assert (F1 : ok (setup_status loaded_no_register) = false)
    by (vm_compute; reflexivity).
  assert (S2 : ok (status loaded_no_prepare) = true) by (vm_compute; reflexivity).
  assert (F2 : ok (setup_status loaded_no_prepare) = false)
    by (vm_compute; reflexivity).
  destruct (setup_failure_leaves_is_spilling_set loaded_no_register S1 F1)
    as (R1 & I1 & C1 & _).
  destruct (setup_failure_leaves_is_spilling_set loaded_no_prepare S2 F2)
    as (R2 & I2 & C2 & _).
  split.
  - split; [vm_compute; reflexivity |].
    split; [rewrite R1; vm_compute; reflexivity |].
    split; [exact I1 | exact C1].
  - split; [vm_compute; reflexivity |].
    split; [rewrite R2; vm_compute; reflexivity |].
    split; [exact I2 | exact C2].
Defined.

(** The failing input of C7: the thread pool rejects the closure while the
    stream has not ended and no run is listed yet. *)
Lemma submit_failure_keeps_run_listed_witness :
  _eos (local_state loaded_no_submit) = false /\
  runs loaded_no_submit = [] /\
  fst (local_revoke_memory loaded_no_submit) = Error 4 "submit_func failed" /\
  runs (snd (local_revoke_memory loaded_no_submit)) = [0] /\
  _spilling_stream (local_state (snd (local_revoke_memory loaded_no_submit)))
  = Some 0 /\
  _is_spilling (local_state (snd (local_revoke_memory loaded_no_submit))) = false /\
  _dependency (local_state (snd (local_revoke_memory loaded_no_submit))) = true.
Proof.
  assert (S1 : ok (status loaded_no_submit) = true) by (vm_compute; reflexivity).
  assert (U1 : submit_status loaded_no_submit
               = Some (0, Error 4 "submit_func failed"))
    by (vm_compute; reflexivity).
  assert (E1 : _eos (local_state loaded_no_submit) = false)
    by (vm_compute; reflexivity).
  assert (R0 : runs loaded_no_submit = []) by (vm_compute; reflexivity).
  destruct (submit_failure_keeps_run_listed loaded_no_submit 0
              (Error 4 "submit_func failed") S1 U1 eq_refl)
    as (R & L & P & I & D).
  rewrite R0 in L. rewrite E1 in D.
  split; [exact E1 |].
  split; [exact R0 |].
  split; [exact R |].
  split; [exact L |].
  split; [exact P |].
  split; [exact I | exact D].
Defined.

(** ** The further properties on the fake collaborators *)

Import Cases.

Lemma pipeline_calls_keep_sink_status_witness :
  exists sts c',
    steps (op true) [CallSink [7] false; CallRevokeMemory; CallSink [] true]
      after_failed_drain = Some (sts, c') /\
    status c' = Error 2 "spill_block failed" /\
    sink (op true) [8] true c' = (Error 2 "spill_block failed", c').
Proof.
  assert (Hs : status after_failed_drain = Error 2 "spill_block failed")
    by (vm_compute; reflexivity).
  destruct (pipeline_calls_keep_sink_status (env := fake_env) (op true)
              [CallSink [7] false; CallRevokeMemory; CallSink [] true]
              after_failed_drain eq_refl) as (sts & c' & E & S & H).
  exists sts, c'. split; [exact E |]. split; [rewrite S; exact Hs |].
  rewrite <- Hs. apply H. rewrite Hs. reflexivity.
Defined.

Lemma pipeline_calls_keep_finish_gate_witness :
  (exists sts c',
     steps (op true) [CallSink [6; 5] false; CallRevokeMemory] loaded
     = Some (sts, c') /\
     _finish_dependency (local_state c') = false) /\
  (fst (sink (op true) [] true (fresh true quiet)) = OK /\
   _ready_to_read (local_state (snd (sink (op true) [] true (fresh true quiet))))
   = true /\
   _finish_dependency (local_state (snd (sink (op true) [] true (fresh true quiet))))
   = false).
Proof.
  destruct (pipeline_calls_keep_finish_gate (env := fake_env) (op true)) as (H1 & H2).
  split.
  - destruct (H1 [CallSink [6; 5] false; CallRevokeMemory] loaded eq_refl)
      as (sts & c' & E & F & _).
    exists sts, c'. split; [exact E |]. rewrite F. vm_compute. reflexivity.
  - assert (Hz : get_revocable_mem_size
                   (snd (sorter_sink [] false (world (fresh true quiet)))) = 0)
      by (vm_compute; reflexivity).
    destruct (H2 [] (fresh true quiet) eq_refl eq_refl eq_refl Hz)
      as (R & RR & F & _).
    split; [exact R |]. split; [exact RR |]. rewrite F. vm_compute. reflexivity.
Defined.

Lemma spill_disabled_never_spills_witness :
  exists sts c',
    steps (op false) [CallSink [3; 1] false; CallRevokeMemory; CallSink [2] true]
      (fresh false quiet) = Some (sts, c') /\
    runs c' = [] /\
    close_waits c' = false /\
    revocable_mem_size (op false) c' = 0.
Proof.
  destruct (spill_disabled_never_spills (env := fake_env) (op false)
              [CallSink [3; 1] false; CallRevokeMemory; CallSink [2] true]
              (fresh false quiet) eq_refl eq_refl)
    as (sts & c' & ext & E & R & _ & _ & _ & _ & C & Z0 & _).
  exists sts, c'. split; [exact E |].
  split; [rewrite R; vm_compute; reflexivity |].
  split; [rewrite C; vm_compute; reflexivity | exact Z0].
Defined.

Lemma sink_sorter_failure_witness :
  fst (sink (env := strict_env) (op true) [4; -1] true loaded)
  = Error 5 "negative key" /\
  status (snd (sink (env := strict_env) (op true) [4; -1] true loaded)) = OK /\
  _eos (local_state (snd (sink (env := strict_env) (op true) [4; -1] true loaded)))
  = true /\
  rows_input_counter
    (local_state (snd (sink (env := strict_env) (op true) [4; -1] true loaded)))
  = 5 /\
  _ready_to_read
    (local_state (snd (sink (env := strict_env) (op true) [4; -1] true loaded)))
  = false.
Proof.
  assert (Hs : ok (status loaded) = true) by (vm_compute; reflexivity).
  assert (Hk : ok (fst (sorter_sink (SinkEnv := strict_env) [4; -1] false
                          (world loaded))) = false)
    by (vm_compute; reflexivity).
  destruct (sink_sorter_failure (env := strict_env) (op true) [4; -1] true loaded
              Hs Hk) as (R & _ & _ & S & E & N & _ & RR & _).
  split; [rewrite R; vm_compute; reflexivity |].
  split; [rewrite S; vm_compute; reflexivity |].
  split; [exact E |].
  split; [rewrite N; vm_compute; reflexivity |].
  rewrite RR. vm_compute. reflexivity.
Defined.

Lemma rows_input_counter_counts_witness :
  rows_input_counter
    (local_state
       (sink_all (env := strict_env) (op true) [[3; 1]; [-1; 2]; [4]]
          (fresh true quiet))) = 5 /\
  buffered
    (world
       (sink_all (env := strict_env) (op true) [[3; 1]; [-1; 2]; [4]]
          (fresh true quiet))) = [1; 3; 4].
Proof.
  assert (Hr : int64_range (rows_input_counter (local_state (fresh true quiet))))
    by (vm_compute; split; [discriminate | reflexivity]).
  destruct (rows_input_counter_counts (env := strict_env) (op true)
              [[3; 1]; [-1; 2]; [4]] (fresh true quiet) eq_refl Hr) as (_ & H).
  split; [| vm_compute; reflexivity].
  rewrite H.
  - vm_compute. reflexivity.
  - vm_compute. discriminate.
  - vm_compute. reflexivity.
Defined.

Lemma batch_row_count_written_by_sink_only_witness :
  spill_block_batch_row_count
    (shared (snd (sink (op true) [3; 1; 2] false (fresh true quiet)))) = 3 /\
  spill_block_batch_row_count (shared (snd (sink (op true) [] false loaded))) = 3 /\
  spill_block_batch_row_count (shared (after true [CallSpillFunc 5] submitted)) = 3.
Proof.
  destruct (batch_row_count_written_by_sink_only (env := fake_env) (op true))
    as (H1 & _ & H3).
  assert (E : spill_func 5 submitted = Some (after true [CallSpillFunc 5] submitted))
    by (vm_compute; reflexivity).
  assert (K : ok (status (after true [CallSpillFunc 5] submitted)) = true)
    by (vm_compute; reflexivity).
  assert (S : ok (status loaded) = true) by (vm_compute; reflexivity).
  split; [| split].
  - rewrite (H1 [3; 1; 2] false (fresh true quiet) eq_refl). vm_compute. reflexivity.
  - rewrite (H1 [] false loaded S). vm_compute. reflexivity.
  - rewrite (H3 5%nat submitted _ E K). vm_compute. reflexivity.
Defined.



Lemma cancelled_before_drain_witness :
  exists c',
    spill_func 0 submitted_cancelled = Some c' /\
    status c' = OK /\
    runs c' = [0] /\
    written (world c') = [].
Proof.
  assert (Hp : _spilling_stream (local_state submitted_cancelled) = Some 0)
    by (vm_compute; reflexivity).
  destruct (cancelled_before_drain (env := fake_env) 0 submitted_cancelled 0 Hp
              eq_refl eq_refl) as (c' & E & S & R & Hw & _).
  exists c'. split; [exact E |]. split; [exact S |].
  split; [rewrite R; vm_compute; reflexivity |].
  rewrite Hw. vm_compute. reflexivity.
Defined.

Lemma spill_appends_one_run_witness :
  runs second_round = [0] /\
  exists c1 c2,
    local_revoke_memory second_round = (OK, c1) /\
    spill_func 5 c1 = Some c2 /\
    runs c2 = [0; 1] /\
    _is_spilling (local_state c2) = false.
Proof.
  split; [vm_compute; reflexivity |].
  set (c1 := snd (local_revoke_memory second_round)).
  set (c2 := after true [CallSpillFunc 5] c1).
  assert (H1 : local_revoke_memory second_round = (OK, c1))
    by (vm_compute; reflexivity).
  assert (H2 : spill_func 5 c1 = Some c2) by (vm_compute; reflexivity).
  assert (H3 : ok (status c2) = true) by (vm_compute; reflexivity).
  clearbody c1 c2.
  destruct (spill_appends_one_run (env := fake_env) 5 second_round c1 c2 H1 H2 H3)
    as (stream & Hg & R & I & _).
  vm_compute in Hg. injection Hg as <-.
  exists c1, c2. split; [exact H1 |]. split; [exact H2 |].
  split; [rewrite R; vm_compute; reflexivity | exact I].
Defined.

Lemma last_sink_spills_then_signals_witness :
  exists c1 c2,
    sink (op true) [5; 4] true loaded = (OK, c1) /\
    spill_func 5 c1 = Some c2 /\
    _ready_to_read (local_state c1) = false /\
    _finish_dependency (local_state c1) = false /\
    _ready_to_read (local_state c2) = true /\
    _finish_dependency (local_state c2) = true /\
    _is_spilling (local_state c2) = false.
Proof.
  set (c1 := snd (sink (op true) [5; 4] true loaded)).
  set (c2 := after true [CallSpillFunc 5] c1).
  assert (H1 : sink (op true) [5; 4] true loaded = (OK, c1))
    by (vm_compute; reflexivity).
  assert (H2 : spill_func 5 c1 = Some c2) by (vm_compute; reflexivity).
  clearbody c1 c2.
  assert (Hs : ok (status loaded) = true) by (vm_compute; reflexivity).
  assert (Hk : ok (fst (sorter_sink [5; 4] false (world loaded))) = true)
    by (vm_compute; reflexivity).
  assert (Hz : 0 < get_revocable_mem_size
                     (snd (sorter_sink [5; 4] false (world loaded))))
    by (vm_compute; reflexivity).
  destruct (last_sink_spills_then_signals (env := fake_env) (op true) [5; 4] 5
              loaded c1 c2 eq_refl Hs Hk Hz H1 H2)
    as ((_ & RR1 & F1 & _) & (I2 & RR2 & F2 & _) & _).
  exists c1, c2. split; [exact H1 |]. split; [exact H2 |].
  split; [rewrite RR1; vm_compute; reflexivity |].
  split; [rewrite F1; vm_compute; reflexivity |].
  split; [exact RR2 |]. split; [exact F2 | exact I2].
Defined.

Lemma update_profile_missing_counter_kept_witness :
  update_profile partial_profile (mkCounters 1 2 3 4) = mkCounters 7 2 3 4 /\
  update_profile (fun _ => None) (mkCounters 1 2 3 4) = mkCounters 1 2 3 4.
Proof.
  destruct (update_profile_missing_counter_kept partial_profile (mkCounters 1 2 3 4))
    as (_ & H2 & H3 & H4 & _ & _ & H7 & _).
  destruct (update_profile_missing_counter_kept (fun _ => None) (mkCounters 1 2 3 4))
    as (_ & _ & _ & _ & _ & _ & _ & H8 & _).
  split; [| exact (H8 eq_refl eq_refl eq_refl)].
  specialize (H2 eq_refl). specialize (H3 eq_refl). specialize (H4 7 eq_refl).
  destruct (update_profile partial_profile (mkCounters 1 2 3 4)) as [a b c d].
  cbn in H2, H3, H4, H7. subst. reflexivity.
Defined.

Lemma prepare_decides_spill_witness :
  (prepare (penv := prepare_env false false) (op true) quiet = (OK, (op false, quiet)) /\
   revocable_mem_size (op false) loaded = 0 /\
   revoke_memory (op false) loaded = (OK, loaded)) /\
  (prepare (penv := prepare_env true true) (op false) quiet
   = (Error 6 "base prepare failed", (op false, quiet))).
Proof.
  assert (E1 : prepare (penv := prepare_env false false) (op true) quiet
               = (OK, (op false, quiet))) by reflexivity.
  assert (E2 : prepare (penv := prepare_env true true) (op false) quiet
               = (Error 6 "base prepare failed", (op false, quiet)))
    by reflexivity.
  destruct (prepare_decides_spill (env := fake_env) (penv := prepare_env false false)
              (op true) (op false) quiet quiet OK E1) as (_ & _ & _ & H & _).
  destruct (H eq_refl eq_refl loaded) as (Z0 & R & _).
  destruct (prepare_decides_spill (env := fake_env) (penv := prepare_env true true)
              (op false) (op false) quiet quiet (Error 6 "base prepare failed") E2)
    as (H1 & _).
  split; [split; [exact E1 | split; [exact Z0 | exact R]] | exact E2].
Defined.
